(** * Webhook sender: a shallow embedding of [webhooks/senders/base.py]

    The development follows the source file top to bottom: Python values,
    the two layered settings dictionaries and [_value_in], the resolved
    settings of [Senderable], payload formatting, [create_signature] on top
    of SHA-256, and the attempt loop of [_send] with its outcome report.

    Modelling conventions.
    - A Python [str] is a Rocq [string] holding its UTF-8 bytes, so
      [s.encode('utf-8')] is the identity on the representation.
    - A Python [dict] with string keys is a [gmap string pyval].
    - An exception is a value of [exn]; fallible code returns [result].
    - What [_send] does to the outside world (printing, POSTing, logging,
      sleeping) is recorded, in order, in a trace of [event]s. *)

From Stdlib Require Import ZArith.
From stdpp Require Import gmap strings list fin_maps pretty.

Local Open Scope Z_scope.

(** ** Python values

    The values the model covers: [None], booleans, integers, strings and
    dicts with string keys. Bytes, lists, tuples and other objects are
    outside it; a statement that depends on the kind of a value names the
    kinds it is about. *)

#[warnings="-register-all"]
Inductive pyval :=
  | VNone
  | VBool (b : bool)
  | VInt (n : Z)
  | VStr (s : string)
  | VDict (d : gmap string pyval).

(** Truth value testing: [None], [False], [0], the empty string and the
    empty dict are falsy. *)
Definition truthy (v : pyval) : bool :=
  match v with
  | VNone => false
  | VBool b => b
  | VInt n => negb (n =? 0)
  | VStr s => negb (bool_decide (s = EmptyString))
  | VDict d => negb (Nat.eqb (size d) 0)
  end.

(** [v == s] for a string constant [s]. *)
Definition py_eq_str (v : pyval) (s : string) : bool :=
  match v with
  | VStr t => bool_decide (t = s)
  | _ => false
  end.

(** [isinstance(v, string_types)] *)
Definition is_string (v : pyval) : bool :=
  match v with
  | VStr _ => true
  | _ => false
  end.

(** [type(v).__name__], as it shows in the interpreter's error messages. *)
Definition type_name (v : pyval) : string :=
  match v with
  | VNone => "NoneType"
  | VBool _ => "bool"
  | VInt _ => "int"
  | VStr _ => "str"
  | VDict _ => "dict"
  end.

(** ** Exceptions and fallible computations *)

Inductive exn :=
  | TypeError (msg : string)
  | AttributeError (msg : string)
  | UnicodeDecodeError (msg : string)
  | ConnectionError (msg : string).

(** [str(ex)] *)
Definition exn_text (e : exn) : string :=
  match e with
  | TypeError m | AttributeError m | UnicodeDecodeError m | ConnectionError m => m
  end.

Inductive result (A : Type) :=
  | Ok (a : A)
  | Raise (e : exn).
Arguments Ok {A} a.
Arguments Raise {A} e.

#[global] Instance result_ret : MRet result := fun A a => Ok a.
#[global] Instance result_bind : MBind result := fun A B f m =>
  match m with
  | Ok a => f a
  | Raise e => Raise e
  end.
#[global] Instance result_fmap : FMap result := fun A B f m =>
  match m with
  | Ok a => Ok (f a)
  | Raise e => Raise e
  end.

(** ** [EncodingType] *)

Module EncodingType.
Definition FORMS : string := "application/x-www-form-urlencoded".
Definition JSON : string := "application/json".
End EncodingType.

(** ** [_value_in] and its two wrappers *)

Definition _value_in (key : string) (required : bool)
    (dkwargs kwargs : gmap string pyval) : result pyval :=
  match kwargs !! key with
  | Some v => Ok v
  | None =>
    match dkwargs !! key with
    | Some v => Ok v
    | None =>
      if required
      then Raise (TypeError ("Sender function needs a " +:+ key +:+ " argument"))
      else Ok VNone
    end
  end.

Definition value_in (key : string) (dkwargs kwargs : gmap string pyval) :=
  _value_in key true dkwargs kwargs.

Definition value_in_opt (key : string) (dkwargs kwargs : gmap string pyval) :=
  _value_in key false dkwargs kwargs.

(** ** [Senderable]: constructor arguments

    [wrapped] is the payload-producing function; it is taken to return
    normally. [attempts] is the schedule handed to the constructor. *)

Record Senderable := {
  wrapped : list pyval → gmap string pyval → pyval;
  dkwargs : gmap string pyval;
  hash_value : option string;
  attempts : list Z;
  args : list pyval;
  kwargs : gmap string pyval
}.

(** ** Resolved settings

    Each [cached_property] wraps a pure lookup over the two dictionaries,
    which nothing rebinds during a send: reading the property and calling
    the getter give the same result, and an exception is raised again at
    every access because [cached_property] stores no value in that case. *)

Definition _default_timeout : pyval := VInt 5.

Definition get_url (self : Senderable) : result pyval :=
  _value_in "url" true (dkwargs self) (kwargs self).

Definition get_custom_headers (self : Senderable) : result pyval :=
  _value_in "custom_headers" false (dkwargs self) (kwargs self).

Definition get_signing_secret (self : Senderable) : result pyval :=
  _value_in "signing_secret" false (dkwargs self) (kwargs self).

Definition invalid_encoding_msg : string :=
  "Invalid choice for 'encoding'. Valid selections are '" +:+ EncodingType.FORMS
  +:+ "' or '" +:+ EncodingType.JSON +:+ "'".

Definition get_encoding (self : Senderable) : result pyval :=
  encoding ← _value_in "encoding" true (dkwargs self) (kwargs self);
  if negb (truthy encoding)
     || negb (py_eq_str encoding EncodingType.JSON
              || py_eq_str encoding EncodingType.FORMS)
  then Raise (TypeError invalid_encoding_msg)
  else Ok encoding.

Definition get_timeout (self : Senderable) : result pyval :=
  v ← _value_in "timeout" false (dkwargs self) (kwargs self);
  Ok (if truthy v then v else _default_timeout).

Definition get_payload (self : Senderable) : pyval :=
  wrapped self (args self) (kwargs self).

(** ** SHA-256 (FIPS 180-4), the digest behind [Crypto.Hash.SHA256]

    Words are 32-bit, held in [Z] with the wrap-around written out; a byte
    string is a [list Z] of values below 256. *)

Module SHA256.

Definition wrap32 (x : Z) : Z := x mod 2 ^ 32.
Definition add32 (x y : Z) : Z := wrap32 (x + y).
Definition rotr (n x : Z) : Z :=
  Z.lor (Z.shiftr x n) (wrap32 (Z.shiftl x (32 - n))).
Definition not32 (x : Z) : Z := Z.lxor x (2 ^ 32 - 1).

Definition ch (x y z : Z) : Z := Z.lxor (Z.land x y) (Z.land (not32 x) z).
Definition maj (x y z : Z) : Z :=
  Z.lxor (Z.lxor (Z.land x y) (Z.land x z)) (Z.land y z).
Definition bsig0 (x : Z) : Z := Z.lxor (Z.lxor (rotr 2 x) (rotr 13 x)) (rotr 22 x).
Definition bsig1 (x : Z) : Z := Z.lxor (Z.lxor (rotr 6 x) (rotr 11 x)) (rotr 25 x).
Definition ssig0 (x : Z) : Z := Z.lxor (Z.lxor (rotr 7 x) (rotr 18 x)) (Z.shiftr x 3).
Definition ssig1 (x : Z) : Z := Z.lxor (Z.lxor (rotr 17 x) (rotr 19 x)) (Z.shiftr x 10).

(** Round constants, in decimal. *)
Definition round_constants : list Z := [
  1116352408; 1899447441; 3049323471; 3921009573; 961987163; 1508970993;
  2453635748; 2870763221; 3624381080; 310598401; 607225278; 1426881987;
  1925078388; 2162078206; 2614888103; 3248222580; 3835390401; 4022224774;
  264347078; 604807628; 770255983; 1249150122; 1555081692; 1996064986;
  2554220882; 2821834349; 2952996808; 3210313671; 3336571891; 3584528711;
  113926993; 338241895; 666307205; 773529912; 1294757372; 1396182291;
  1695183700; 1986661051; 2177026350; 2456956037; 2730485921; 2820302411;
  3259730800; 3345764771; 3516065817; 3600352804; 4094571909; 275423344;
  430227734; 506948616; 659060556; 883997877; 958139571; 1322822218;
  1537002063; 1747873779; 1955562222; 2024104815; 2227730452; 2361852424;
  2428436474; 2756734187; 3204031479; 3329325298 ].

(** The eight working words. *)
Record regs := Regs { ra : Z; rb : Z; rc : Z; rd : Z; re : Z; rf : Z; rg : Z; rh : Z }.

Definition initial : regs :=
  Regs 1779033703 3144134277 1013904242 2773480762
       1359893119 2600822924 528734635 1541459225.

(** Padding: a 1 bit, zeros up to 56 mod 64 bytes, the bit length on 64 bits. *)
Definition be_bytes (width : nat) (x : Z) : list Z :=
  map (fun i => Z.land (Z.shiftr x (8 * Z.of_nat i)) 255) (rev (seq 0 width)).

Definition pad (msg : list Z) : list Z :=
  let len := Z.of_nat (length msg) in
  let zeros := Z.to_nat ((55 - len) mod 64) in
  msg ++ 128 :: replicate zeros 0 ++ be_bytes 8 (8 * len).

Fixpoint chunks (n : nat) (size : nat) (l : list Z) : list (list Z) :=
  match n with
  | O => []
  | S n' => take size l :: chunks n' size (drop size l)
  end.

Definition word_of_bytes (bs : list Z) : Z :=
  fold_left (fun acc b => Z.lor (Z.shiftl acc 8) b) bs 0.

Definition block_words (block : list Z) : list Z :=
  map word_of_bytes (chunks 16 4 block).

(** Message schedule: 48 more words after the 16 of the block. *)
Fixpoint extend (n : nat) (w : list Z) : list Z :=
  match n with
  | O => w
  | S n' =>
    let t := length w in
    let at_ (k : nat) := nth (t - k) w 0 in
    extend n'
      (w ++ [add32 (add32 (ssig1 (at_ 2%nat)) (at_ 7%nat))
                   (add32 (ssig0 (at_ 15%nat)) (at_ 16%nat))])
  end.

Definition round (r : regs) (kw : Z * Z) : regs :=
  let t1 := add32 (add32 (add32 (rh r) (bsig1 (re r))) (ch (re r) (rf r) (rg r)))
                  (add32 (fst kw) (snd kw)) in
  let t2 := add32 (bsig0 (ra r)) (maj (ra r) (rb r) (rc r)) in
  Regs (add32 t1 t2) (ra r) (rb r) (rc r) (add32 (rd r) t1) (re r) (rf r) (rg r).

Definition compress (h : regs) (block : list Z) : regs :=
  let w := extend 48 (block_words block) in
  let r := fold_left round (zip round_constants w) h in
  Regs (add32 (ra h) (ra r)) (add32 (rb h) (rb r)) (add32 (rc h) (rc r))
       (add32 (rd h) (rd r)) (add32 (re h) (re r)) (add32 (rf h) (rf r))
       (add32 (rg h) (rg r)) (add32 (rh h) (rh r)).

Definition hash (msg : list Z) : regs :=
  let p := pad msg in
  fold_left compress (chunks (length p / 64) 64 p) initial.

Definition words (r : regs) : list Z :=
  [ra r; rb r; rc r; rd r; re r; rf r; rg r; rh r].

(** The 32 digest bytes. *)
Definition digest (msg : list Z) : list Z :=
  words (hash msg) ≫= be_bytes 4.

(** Lowercase hexadecimal. *)
Definition hex_digit (x : Z) : Ascii.ascii :=
  Ascii.ascii_of_nat (Z.to_nat (if x <? 10 then 48 + x else 87 + x)).

Definition hex_word (w : Z) (rest : string) : string :=
  String (hex_digit (Z.land (Z.shiftr w 28) 15))
 (String (hex_digit (Z.land (Z.shiftr w 24) 15))
 (String (hex_digit (Z.land (Z.shiftr w 20) 15))
 (String (hex_digit (Z.land (Z.shiftr w 16) 15))
 (String (hex_digit (Z.land (Z.shiftr w 12) 15))
 (String (hex_digit (Z.land (Z.shiftr w 8) 15))
 (String (hex_digit (Z.land (Z.shiftr w 4) 15))
 (String (hex_digit (Z.land w 15)) rest))))))).

Definition hex (r : regs) : string :=
  fold_right hex_word EmptyString (words r).

(** The hash object of the library: [new] absorbs the first bytes,
    [update] appends more, [hexdigest] hashes all that was absorbed. *)
Definition hasher := list Z.
Definition new (data : list Z) : hasher := data.
Definition update (h : hasher) (data : list Z) : hasher := h ++ data.
Definition hexdigest (h : hasher) : string := hex (hash h).

End SHA256.

(** [s.encode('utf-8')]: the bytes of the representation. *)
Definition encode_utf8 (s : string) : list Z :=
  map (fun c => Z.of_N (Ascii.N_of_ascii c)) (String.list_ascii_of_string s).

(** HMAC (RFC 2104) over SHA-256, as the specification words the signature:
    it is stated here to be compared with what [create_signature] computes. *)
Definition hmac_sha256 (key msg : list Z) : SHA256.regs :=
  let k0 := if (64 <? length key)%nat then SHA256.digest key else key in
  let k := k0 ++ replicate (64 - length k0)%nat 0 in
  SHA256.hash (map (Z.lxor 92) k ++ SHA256.digest (map (Z.lxor 54) k ++ msg)).

Definition spec_signature (body secret : string) : string :=
  "sha256=" +:+ SHA256.hex (hmac_sha256 (encode_utf8 secret) (encode_utf8 body)).

(** ** The outside world

    [json.dumps], the form encoder of [requests], [str.format] on a payload
    and [requests.post] are library code. They are taken as given functions;
    [post] is told which call it is answering (counted from 0) so that a
    receiver may answer differently from one attempt to the next. *)

(** The response object, through the three attributes [_send] reads:
    [status_code], [text], and [content.decode('utf-8')], which either
    yields a string or raises. *)
Record Response := {
  status_code : Z;
  text : string;
  content_utf8 : result string
}.

Record externals := {
  json_dumps : pyval → string;
  urlencode : gmap string pyval → string;
  py_str : pyval → string;
  post : nat → pyval → gmap string pyval → result Response
}.

Inductive level := DEBUG | INFO | ERROR.

Inductive event :=
  | EPrint (v : pyval)
  | EPost (url : pyval) (post_attributes : gmap string pyval)
  | ENotify (lvl : level) (msg : string)
  | ESleep (seconds : Z).

Definition is_post (e : event) : bool :=
  match e with EPost _ _ => true | _ => false end.

Definition posts (t : list event) : list event := filter is_post t.

(** The durations slept, in order. *)
Definition sleeps (t : list event) : list Z :=
  t ≫= (fun e => match e with ESleep w => [w] | _ => [] end).

(** ** Small pieces of Python *)

Definition dquote : Ascii.ascii := Ascii.ascii_of_nat 34.
Definition squote : Ascii.ascii := Ascii.ascii_of_nat 39.
Definition dq : string := String dquote EmptyString.

(** [s.replace(double quote, single quote)] *)
Fixpoint replace_dquote (s : string) : string :=
  match s with
  | EmptyString => EmptyString
  | String c rest =>
    String (if Ascii.eqb c dquote then squote else c) (replace_dquote rest)
  end.

(** [d.get(k, None)] *)
Definition dict_get (d : gmap string pyval) (k : string) : pyval :=
  default VNone (d !! k).

(** [target[k] = v] *)
Definition set_item (target : pyval) (k : string) (v : pyval) : result pyval :=
  match target with
  | VDict d => Ok (VDict (<[k := v]> d))
  | _ => Raise (TypeError ("'" +:+ type_name target
                           +:+ "' object does not support item assignment"))
  end.

(** [v.encode('utf-8')] *)
Definition encode (v : pyval) : result (list Z) :=
  match v with
  | VStr s => Ok (encode_utf8 s)
  | _ => Raise (AttributeError ("'" +:+ type_name v
                                +:+ "' object has no attribute 'encode'"))
  end.

(** ["{}".format(hash_value)] *)
Definition format_hash (h : option string) : string :=
  match h with
  | None => "None"
  | Some s => s
  end.

(** [enumerate(range(n))] *)
Definition range (n : nat) : list Z := map Z.of_nat (seq 0 n).
Definition enumerate {A} (l : list A) : list (nat * A) := zip (seq 0 (length l)) l.

Section Sender.
Context (ext : externals).

(** ** Payload formatting *)

Definition jsonify_payload (self : Senderable) : pyval :=
  if is_string (get_payload self) then get_payload self
  else VStr (json_dumps ext (get_payload self)).

Definition format_payload (self : Senderable) : result pyval :=
  encoding ← get_encoding self;
  if py_eq_str encoding EncodingType.JSON
  then Ok (jsonify_payload self)
  else Ok (get_payload self).

(** ** Signature

    [requests.PreparedRequest()._encode_params] leaves text alone,
    form-encodes a mapping and hands anything else back as it is.
    Lines 199 and 205 skip [encode] for bytes; no value of the model is
    bytes, so both tests are false here and [encode] is always called. *)
Definition _encode_params (data : pyval) : pyval :=
  match data with
  | VDict d => VStr (urlencode ext d)
  | _ => data
  end.

Definition create_signature (payload secret : pyval) : result string :=
  secret ← encode secret;
  let payload := if negb (is_string payload) then _encode_params payload else payload in
  let hmac := SHA256.new secret in
  payload ← encode payload;
  let hmac := SHA256.update hmac payload in
  Ok ("sha256=" +:+ SHA256.hexdigest hmac).

(** ** [_send], lines 119-131: the request attributes, built once *)
Definition build_post_attributes (self : Senderable) : result (gmap string pyval) :=
  timeout ← get_timeout self;
  let post_attributes : gmap string pyval := {[ "timeout" := timeout ]} in
  custom_headers ← get_custom_headers self;
  let post_attributes :=
    if truthy custom_headers
    then <["headers" := custom_headers]> post_attributes
    else post_attributes in
  let post_attributes :=
    if negb (truthy (dict_get post_attributes "headers"))
    then <["headers" := VDict ∅]> post_attributes
    else post_attributes in
  encoding ← get_encoding self;
  headers ← set_item (dict_get post_attributes "headers") "Content-Type" encoding;
  let post_attributes := <["headers" := headers]> post_attributes in
  data ← format_payload self;
  let post_attributes := <["data" := data]> post_attributes in
  signing_secret ← get_signing_secret self;
  if truthy signing_secret
  then
    signature ← create_signature (dict_get post_attributes "data") signing_secret;
    headers ← set_item (dict_get post_attributes "headers") "x-hub-signature"
                       (VStr signature);
    Ok (<["headers" := headers]> post_attributes)
  else Ok post_attributes.

(** ** The state of a send

    The attributes [__init__] sets and [_send] rebinds, the local
    dictionary [sending_metadata], and the trace of what was done. *)
Record sender_state := {
  attempt : Z;
  error : pyval;
  response : option Response;
  response_content : option string;
  sending_metadata : gmap string pyval;
  trace : list event
}.

Definition initial_state : sender_state :=
  {| attempt := 0; error := VNone; response := None; response_content := None;
     sending_metadata := ∅; trace := [] |}.

Definition set_attempt (n : Z) (s : sender_state) : sender_state :=
  {| attempt := n; error := error s; response := response s;
     response_content := response_content s;
     sending_metadata := sending_metadata s; trace := trace s |}.
Definition set_error (e : pyval) (s : sender_state) : sender_state :=
  {| attempt := attempt s; error := e; response := response s;
     response_content := response_content s;
     sending_metadata := sending_metadata s; trace := trace s |}.
Definition set_response (r : Response) (s : sender_state) : sender_state :=
  {| attempt := attempt s; error := error s; response := Some r;
     response_content := response_content s;
     sending_metadata := sending_metadata s; trace := trace s |}.
Definition set_response_content (c : string) (s : sender_state) : sender_state :=
  {| attempt := attempt s; error := error s; response := response s;
     response_content := Some c;
     sending_metadata := sending_metadata s; trace := trace s |}.
Definition set_metadata (k : string) (v : pyval) (s : sender_state) : sender_state :=
  {| attempt := attempt s; error := error s; response := response s;
     response_content := response_content s;
     sending_metadata := <[k := v]> (sending_metadata s); trace := trace s |}.
Definition record_event (e : event) (s : sender_state) : sender_state :=
  {| attempt := attempt s; error := error s; response := response s;
     response_content := response_content s;
     sending_metadata := sending_metadata s; trace := trace s ++ [e] |}.

(** State and exceptions: a computation ends in a value or an exception
    and, either way, in the state reached. *)
Definition M (A : Type) : Type := sender_state → result A * sender_state.

#[local] Instance M_ret : MRet M := fun A a s => (Ok a, s).
#[local] Instance M_bind : MBind M := fun A B f m s =>
  match m s with
  | (Ok a, s') => f a s'
  | (Raise e, s') => (Raise e, s')
  end.

Definition lift {A} (r : result A) : M A := fun s => (r, s).
Definition get : M sender_state := fun s => (Ok s, s).
Definition modify (f : sender_state → sender_state) : M unit := fun s => (Ok tt, f s).
Definition emit (e : event) : M unit := modify (record_event e).

(** [try: body / except Exception as ex: handler(ex)] *)
Definition try_except {A} (body : M A) (handler : exn → M A) : M A := fun s =>
  match body s with
  | (Ok a, s') => (Ok a, s')
  | (Raise ex, s') => handler ex s'
  end.

(** The three logging methods. *)
Definition notify_debug (message : string) : M unit := emit (ENotify DEBUG message).
Definition notify (message : string) : M unit := emit (ENotify INFO message).
Definition notify_error (message : string) : M unit := emit (ENotify ERROR message).

Definition status_error (r : Response) : string :=
  "Status code (" +:+ pretty (status_code r) +:+ "). Message: " +:+ text r.

Definition failure_body (err_formatted : string) : string :=
  "{" +:+ dq +:+ "status_code" +:+ dq +:+ ": 500, " +:+ dq +:+ "status" +:+ dq
  +:+ ":" +:+ dq +:+ "failure" +:+ dq +:+ "," +:+ dq +:+ "error" +:+ dq +:+ ":"
  +:+ dq +:+ err_formatted +:+ dq +:+ "}".

(** ** [_send], lines 139-161: the body of the [try]

    Python 3 is modelled, where the content is decoded. The result tells
    whether [break] was reached. *)
Definition try_body (self : Senderable) (post_attributes : gmap string pyval) : M bool :=
  url ← lift (get_url self);
  emit (EPrint url);;
  s ← get;
  emit (EPost url post_attributes);;
  r ← lift (post ext (length (posts (trace s))) url post_attributes);
  modify (set_response r);;
  content ← lift (content_utf8 r);
  modify (set_response_content content);;
  modify (set_metadata "status_code" (VInt (status_code r)));;
  if (200 <=? status_code r) && (status_code r <? 300)
  then
    s ← get;
    notify ("Attempt " +:+ pretty (attempt s) +:+ ": Successfully sent webhook "
            +:+ format_hash (hash_value self));;
    modify (set_metadata "response" (VStr content));;
    modify (set_metadata "success" (VBool true));;
    mret true
  else
    modify (set_error (VStr (status_error r)));;
    mret false.

(** Lines 164-167: the [except] clause. *)
Definition except_body (ex : exn) : M bool :=
  let err_formatted := replace_dquote (exn_text ex) in
  modify (set_metadata "response" (VStr (failure_body err_formatted)));;
  modify (set_error (VStr err_formatted));;
  mret false.

(** Lines 135-183: one turn of the loop, for the pair [(i, wait)]. *)
Definition loop_body (self : Senderable) (post_attributes : gmap string pyval)
    (iw : nat * Z) : M bool :=
  modify (set_attempt (Z.of_nat iw.1 + 1));;
  s ← get;
  modify (set_metadata "attempt" (VInt (attempt s)));;
  broke ← try_except (try_body self post_attributes) except_body;
  if broke : bool then mret true
  else
    s ← get;
    notify ("Attempt " +:+ pretty (attempt s) +:+ ": Could not send webhook "
            +:+ format_hash (hash_value self));;
    notify_debug ("Webhook " +:+ format_hash (hash_value self) +:+ ". Body: "
                  +:+ py_str ext (get_payload self));;
    (if attempt s =? Z.of_nat (length (attempts self)) - 1
     then notify_error ("Failed to send webhook " +:+ format_hash (hash_value self)
                        +:+ ". Body: " +:+ py_str ext (get_payload self))
     else emit (ESleep iw.2));;
    mret false.

(** [for item in items: body], left early when the body breaks. *)
Fixpoint for_each {A} (body : A → M bool) (items : list A) : M unit :=
  match items with
  | [] => mret tt
  | item :: rest =>
    broke ← body item;
    if broke : bool then mret tt else for_each body rest
  end.

(** ** [_send], lines 185-196: the outcome

    When the payload is a dict sent form-encoded, [post_attributes['data']]
    is that very dict, so the [hash] entry added to the payload also shows
    under [post_attributes] in what is returned. *)
Definition data_is_payload (self : Senderable) : bool :=
  match get_encoding self with
  | Ok encoding => negb (py_eq_str encoding EncodingType.JSON)
  | Raise _ => false
  end.

(** Lines 188-195: the mapping that is merged last. A string is wrapped,
    a non-empty hash is stored under [hash], and [update] needs a dict:
    of the values of the model only a dict is an iterable of pairs. *)
Definition payload_mapping (self : Senderable) : result (gmap string pyval) :=
  let payload := get_payload self in
  let payload :=
    if is_string payload then VDict {[ "payload" := payload ]} else payload in
  payload ← match hash_value self with
            | Some h =>
              if (0 <? String.length h)%nat
              then set_item payload "hash" (VStr h)
              else Ok payload
            | None => Ok payload
            end;
  match payload with
  | VDict d => Ok d
  | _ => Raise (TypeError ("'" +:+ type_name payload +:+ "' object is not iterable"))
  end.

Definition report (self : Senderable) (post_attributes : gmap string pyval)
    : M (gmap string pyval) :=
  s ← get;
  modify (set_metadata "error"
            (if truthy (dict_get (sending_metadata s) "success") || negb (truthy (error s))
             then VNone else error s));;
  modify (set_metadata "post_attributes" (VDict post_attributes));;
  s ← get;
  let merged_dict := sending_metadata s in
  payload ← lift (payload_mapping self);
  let merged_dict :=
    if data_is_payload self && negb (is_string (get_payload self))
    then <["post_attributes" := VDict (<["data" := VDict payload]> post_attributes)]>
           merged_dict
    else merged_dict in
  mret (payload ∪ merged_dict).

(** ** [_send] and [send] *)
Definition _send (self : Senderable) : M (gmap string pyval) :=
  modify (set_metadata "success" (VBool false));;
  post_attributes ← lift (build_post_attributes self);
  for_each (loop_body self post_attributes)
           (enumerate (range (length (attempts self) - 1)));;
  report self post_attributes.

Definition send (self : Senderable) : M (gmap string pyval) := _send self.

(** Running a send from the state [__init__] leaves. *)
Definition run (self : Senderable) : result (gmap string pyval) * sender_state :=
  send self initial_state.

(** ** Vocabulary for the statements about the loop *)

(** What the [try] block gets for its request when [calls] POSTs were
    made before: nothing is posted when the URL does not resolve. *)
Definition request (self : Senderable) (post_attributes : gmap string pyval)
    (calls : nat) : result Response :=
  url ← get_url self;
  post ext calls url post_attributes.

Definition request_events (self : Senderable) (post_attributes : gmap string pyval)
    : list event :=
  match get_url self with
  | Ok url => [EPrint url; EPost url post_attributes]
  | Raise _ => []
  end.

Definition in_2xx (code : Z) : bool := (200 <=? code) && (code <? 300).

(** An attempt is delivered when a response came back, its content
    decoded, and its status is in the 2xx range. *)
Definition delivered (o : result Response) : bool :=
  match o with
  | Ok r =>
    match content_utf8 r with
    | Ok _ => in_2xx (status_code r)
    | Raise _ => false
    end
  | Raise _ => false
  end.

(** The text kept in [self.error] by an attempt that is not delivered. *)
Definition failure_message (o : result Response) : string :=
  match o with
  | Ok r =>
    match content_utf8 r with
    | Ok _ => status_error r
    | Raise ex => replace_dquote (exn_text ex)
    end
  | Raise ex => replace_dquote (exn_text ex)
  end.

(** The events of an attempt that is delivered, and of one that is not;
    [iw] is the pair the loop is at. *)
Definition delivered_events (self : Senderable) (post_attributes : gmap string pyval)
    (iw : nat * Z) : list event :=
  request_events self post_attributes ++
  [ENotify INFO ("Attempt " +:+ pretty (Z.of_nat iw.1 + 1)
                 +:+ ": Successfully sent webhook " +:+ format_hash (hash_value self))].

Definition after_failure (self : Senderable) (iw : nat * Z) : event :=
  if Z.of_nat iw.1 + 1 =? Z.of_nat (length (attempts self)) - 1
  then ENotify ERROR ("Failed to send webhook " +:+ format_hash (hash_value self)
                      +:+ ". Body: " +:+ py_str ext (get_payload self))
  else ESleep iw.2.

Definition failure_events (self : Senderable) (post_attributes : gmap string pyval)
    (iw : nat * Z) : list event :=
  request_events self post_attributes ++
  [ENotify INFO ("Attempt " +:+ pretty (Z.of_nat iw.1 + 1)
                 +:+ ": Could not send webhook " +:+ format_hash (hash_value self));
   ENotify DEBUG ("Webhook " +:+ format_hash (hash_value self) +:+ ". Body: "
                  +:+ py_str ext (get_payload self));
   after_failure self iw].

(** The pairs [enumerate(range(...))] yields from index [a] on. *)
Definition turns (a m : nat) : list (nat * Z) :=
  map (fun i => (i, Z.of_nat i)) (seq a m).

(** The state the loop starts from, and the value line 185 stores under
    [error] when the loop has ended in state [s]. *)
Definition loop_start : sender_state :=
  set_metadata "success" (VBool false) initial_state.

Definition final_error (s : sender_state) : pyval :=
  if truthy (dict_get (sending_metadata s) "success") || negb (truthy (error s))
  then VNone else error s.

(** [post_attributes] as the returned mapping shows it, [d] being the
    mapping merged last. *)
Definition reported_attributes (self : Senderable)
    (post_attributes d : gmap string pyval) : gmap string pyval :=
  if data_is_payload self && negb (is_string (get_payload self))
  then <["data" := VDict d]> post_attributes
  else post_attributes.

End Sender.

(** A send reports [v] under [key]: [sending_metadata] holds it when the
    send is over, and the returned mapping shows it unless the payload
    itself carries that key, since the payload is merged last. *)
Definition reports (self : Senderable)
    (res : result (gmap string pyval) * sender_state) (key : string) (v : pyval) : Prop :=
  sending_metadata res.2 !! key = Some v
  ∧ ∀ d, payload_mapping self = Ok d →
         ∃ o, res.1 = Ok o ∧ (d !! key = None → o !! key = Some v).

(** The same sender with another schedule. *)
Definition with_attempts (self : Senderable) (schedule : list Z) : Senderable :=
  {| wrapped := wrapped self; dkwargs := dkwargs self; hash_value := hash_value self;
     attempts := schedule; args := args self; kwargs := kwargs self |}.

(** ** Data for the examples

    Stand-ins for the library functions, a few responses and senders. *)

Definition stub_externals (script : nat → result Response) : externals :=
  {| json_dumps := fun _ => "{}";
     urlencode := fun _ => EmptyString;
     py_str := fun _ => "payload";
     post := fun calls _ _ => script calls |}.

Definition sender_without_settings : Senderable :=
  {| wrapped := fun _ _ => VStr "raw"; dkwargs := ∅; hash_value := None;
     attempts := [0; 0]; args := []; kwargs := ∅ |}.

Definition sender_with_zero_timeout : Senderable :=
  {| wrapped := fun _ _ => VStr "raw"; dkwargs := {[ "timeout" := VInt 30 ]};
     hash_value := None; attempts := [0; 0]; args := [];
     kwargs := {[ "timeout" := VInt 0 ]} |}.

Definition response_of (code : Z) (body : string) : Response :=
  {| status_code := code; text := body; content_utf8 := Ok body |}.

(** Status 500 on the first call, 200 with body OK on every later one. *)
Definition fails_once (calls : nat) : result Response :=
  match calls with
  | O => Ok (response_of 500 "Internal Server Error")
  | S _ => Ok (response_of 200 "OK")
  end.

Definition refuses (msg : string) (calls : nat) : result Response :=
  Raise (ConnectionError msg).

(** A 200 response whose body is the single byte 0xff. *)
Definition undecodable_200 : Response :=
  {| status_code := 200;
     text := String (Ascii.ascii_of_nat 239)
               (String (Ascii.ascii_of_nat 191)
                  (String (Ascii.ascii_of_nat 189) EmptyString));
     content_utf8 := Raise (UnicodeDecodeError
       "'utf-8' codec can't decode byte 0xff in position 0: invalid start byte") |}.

(** A 200 response served as text/plain without a charset: [text] is the
    ISO-8859-1 reading of the two bytes that are one letter in UTF-8. *)
Definition latin1_200 : Response :=
  {| status_code := 200;
     text := String (Ascii.ascii_of_nat 195) (String (Ascii.ascii_of_nat 131)
               (String (Ascii.ascii_of_nat 194) (String (Ascii.ascii_of_nat 169)
                  EmptyString)));
     content_utf8 := Ok (String (Ascii.ascii_of_nat 195)
                           (String (Ascii.ascii_of_nat 169) EmptyString)) |}.

Definition json_settings : gmap string pyval :=
  {[ "url" := VStr "https://example.test/hook";
     "encoding" := VStr EncodingType.JSON ]}.

(** Schedule [0, 1, 0], string payload, hash abc123. *)
Definition scenario_sender : Senderable :=
  {| wrapped := fun _ _ => VStr "raw"; dkwargs := json_settings;
     hash_value := Some "abc123"; attempts := [0; 1; 0]; args := []; kwargs := ∅ |}.

(** Schedule [0, 0]: one attempt. *)
Definition one_shot_sender : Senderable :=
  {| wrapped := fun _ _ => VStr "raw"; dkwargs := json_settings;
     hash_value := None; attempts := [0; 0]; args := []; kwargs := ∅ |}.

(** Everything but the URL is configured. *)
Definition sender_without_url : Senderable :=
  {| wrapped := fun _ _ => VStr "raw";
     dkwargs := {[ "encoding" := VStr EncodingType.JSON ]};
     hash_value := None; attempts := [0; 1; 0]; args := []; kwargs := ∅ |}.

(** The request attributes the two senders above build. *)
Definition raw_json_attributes : gmap string pyval :=
  {[ "timeout" := VInt 5;
     "headers" := VDict {[ "Content-Type" := VStr EncodingType.JSON ]};
     "data" := VStr "raw" ]}.

(** The JSON text of the object with the one member a = 1. *)
Definition json_body : string := "{" +:+ dq +:+ "a" +:+ dq +:+ ":1}".


(** Schedule [7]: no attempt at all. *)
Definition no_attempt_sender : Senderable :=
  {| wrapped := fun _ _ => VDict {[ "x" := VInt 1 ]}; dkwargs := json_settings;
     hash_value := Some "abc123"; attempts := [7]; args := []; kwargs := ∅ |}.

Definition no_attempt_attributes : gmap string pyval :=
  {[ "timeout" := VInt 5;
     "headers" := VDict {[ "Content-Type" := VStr EncodingType.JSON ]};
     "data" := VStr "{}" ]}.

(** ** More vocabulary *)

(** [isinstance(v, dict)] *)
Definition is_dict (v : pyval) : bool :=
  match v with
  | VDict _ => true
  | _ => false
  end.

(** The entries of a value when it is a dict, none otherwise. *)
Definition entries (v : pyval) : gmap string pyval :=
  match v with
  | VDict d => d
  | _ => ∅
  end.

(** The messages logged at a level, in order. *)
Definition logged (lvl : level) (t : list event) : list string :=
  t ≫= (fun e =>
    match e, lvl with
    | ENotify DEBUG m, DEBUG | ENotify INFO m, INFO | ENotify ERROR m, ERROR => [m]
    | _, _ => []
    end).

(** What was found for a setting: keyword arguments first. *)
Definition found (self : Senderable) (key : string) : option pyval :=
  (kwargs self ∪ dkwargs self) !! key.

(** A dict payload sent form-encoded and signed, with custom headers that
    try to set the content type themselves. *)
Definition signed_forms_sender : Senderable :=
  {| wrapped := fun _ _ => VDict {[ "x" := VInt 1 ]};
     dkwargs := {[ "url" := VStr "https://example.test/hook";
                   "encoding" := VStr EncodingType.FORMS;
                   "signing_secret" := VStr "key";
                   "custom_headers" := VDict {[ "Content-Type" := VStr "text/plain";
                                                "X-Token" := VStr "t" ]} ]};
     hash_value := Some "abc123"; attempts := [0; 0]; args := []; kwargs := ∅ |}.

(** A sender whose keyword arguments ask for a timeout of 0. *)
Definition sender_with_zero_timeout_url : Senderable :=
  {| wrapped := fun _ _ => VStr "raw"; dkwargs := json_settings;
     hash_value := None; attempts := [0; 0]; args := [];
     kwargs := {[ "timeout" := VInt 0 ]} |}.





(** Schedule [7], with a payload that brings metadata keys of its own. *)
Definition no_attempt_colliding_sender : Senderable :=
  {| wrapped := fun _ _ => VDict {[ "success" := VBool true; "attempt" := VInt 3 ]};
     dkwargs := json_settings;
     hash_value := None; attempts := [7]; args := []; kwargs := ∅ |}.

(** * Properties *)

(** ** Settings *)

(** Keyword arguments are looked up first, then the defaults. *)
Lemma _value_in_union key required (dk kw : gmap string pyval) :
  _value_in key required dk kw =
  match (kw ∪ dk) !! key with
  | Some v => Ok v
  | None =>
    if required
    then Raise (TypeError ("Sender function needs a " +:+ key +:+ " argument"))
    else Ok VNone
  end.
Proof.
  unfold _value_in. rewrite lookup_union.
  destruct (kw !! key), (dk !! key); reflexivity.
Qed.

Lemma _value_in_kwargs_first key required (dk kw : gmap string pyval) v :
  kw !! key = Some v → _value_in key required dk kw = Ok v.
Proof. intros H. unfold _value_in. by rewrite H. Qed.

Lemma _value_in_optional key (dk kw : gmap string pyval) :
  ∃ v, _value_in key false dk kw = Ok v.
Proof. unfold _value_in. destruct (kw !! key), (dk !! key); eauto. Qed.

Lemma py_eq_str_true v s : py_eq_str v s = true ↔ v = VStr s.
Proof.
  destruct v; simpl; try (split; [discriminate | congruence]).
  rewrite bool_decide_eq_true. split; congruence.
Qed.

Lemma py_eq_str_false v s : py_eq_str v s = false ↔ v ≠ VStr s.
Proof.
  rewrite <- py_eq_str_true. destruct (py_eq_str v s); split; congruence.
Qed.

(** [get_encoding] accepts exactly the two MIME strings. *)
Lemma get_encoding_ok self v :
  get_encoding self = Ok v ↔
  (kwargs self ∪ dkwargs self) !! "encoding" = Some v
  ∧ (v = VStr EncodingType.JSON ∨ v = VStr EncodingType.FORMS).
Proof.
  unfold get_encoding. rewrite _value_in_union.
  destruct ((kwargs self ∪ dkwargs self) !! "encoding") as [w|]; simpl.
  - destruct (py_eq_str w EncodingType.JSON) eqn:Hj.
    + apply py_eq_str_true in Hj as ->. simpl. split.
      * intros [= <-]. auto.
      * intros [[= <-] _]. reflexivity.
    + destruct (py_eq_str w EncodingType.FORMS) eqn:Hf.
      * apply py_eq_str_true in Hf as ->. simpl. split.
        -- intros [= <-]. auto.
        -- intros [[= <-] _]. reflexivity.
      * apply py_eq_str_false in Hj, Hf.
        rewrite orb_true_r. split; [discriminate |].
        intros [[= <-] [-> | ->]]; congruence.
  - split; [discriminate | intros [[=] _]].
Qed.

(** C4, amended. Resolving the encoding fails whenever the value found is
    anything other than the two MIME strings. The error names the two valid
    choices when the key is present in one of the two sources; when it is
    absent from both, the error is the one [_value_in] raises for a missing
    required argument, which names the key and not the choices. *)
Theorem get_encoding_rejects self (found : option pyval) :
  (kwargs self ∪ dkwargs self) !! "encoding" = found →
  found ≠ Some (VStr EncodingType.JSON) →
  found ≠ Some (VStr EncodingType.FORMS) →
  get_encoding self =
  Raise (TypeError (match found with
                    | Some _ => invalid_encoding_msg
                    | None => "Sender function needs a encoding argument"
                    end)).
Proof.
  intros Hfound Hj Hf. unfold get_encoding. rewrite _value_in_union, Hfound.
  destruct found as [v|]; simpl; [| reflexivity].
  assert (py_eq_str v EncodingType.JSON = false) as ->
    by (apply py_eq_str_false; congruence).
  assert (py_eq_str v EncodingType.FORMS = false) as ->
    by (apply py_eq_str_false; congruence).
  by rewrite orb_true_r.
Qed.

Lemma get_encoding_rejects_witness :
  get_encoding sender_without_settings =
  Raise (TypeError "Sender function needs a encoding argument").
Proof.
  apply (get_encoding_rejects sender_without_settings None);
    [reflexivity | discriminate | discriminate].
Defined.

(** C4 as stated fails when the key is absent from both sources: the error
    raised is not the one naming the two valid choices. *)
Lemma get_encoding_absent_names_no_choice :
  (kwargs sender_without_settings ∪ dkwargs sender_without_settings) !! "encoding" = None
  ∧ get_encoding sender_without_settings ≠ Raise (TypeError invalid_encoding_msg).
Proof. split; [reflexivity | vm_compute; discriminate]. Qed.

(** C9. The timeout resolves to the default 5 when the key is absent from
    both sources and, just the same, for every falsy value found: an explicit
    0 gives 5. No settings make the timeout resolve to 0. *)
Theorem get_timeout_falsy_default self (found : option pyval) :
  (kwargs self ∪ dkwargs self) !! "timeout" = found →
  from_option truthy false found = false →
  get_timeout self = Ok (VInt 5) ∧ get_timeout self ≠ Ok (VInt 0).
Proof.
  intros Hfound Hfalsy.
  assert (get_timeout self = Ok (VInt 5)) as ->; [| split; [done | discriminate]].
  unfold get_timeout. rewrite _value_in_union, Hfound.
  destruct found as [v|]; simpl in *; [| reflexivity].
  by rewrite Hfalsy.
Qed.

Lemma get_timeout_falsy_default_witness :
  get_timeout sender_with_zero_timeout = Ok (VInt 5)
  ∧ get_timeout sender_with_zero_timeout ≠ Ok (VInt 0).
Proof.
  apply (get_timeout_falsy_default sender_with_zero_timeout (Some (VInt 0)));
    reflexivity.
Defined.

Lemma get_timeout_never_zero self : get_timeout self ≠ Ok (VInt 0).
Proof.
  unfold get_timeout.
  destruct (_value_in_optional "timeout" (dkwargs self) (kwargs self)) as [v ->].
  simpl. destruct (truthy v) eqn:Hv; [| discriminate].
  intros [= ->]. discriminate.
Qed.

Lemma get_timeout_absent self :
  kwargs self !! "timeout" = None → dkwargs self !! "timeout" = None →
  get_timeout self = Ok (VInt 5).
Proof.
  intros Hk Hd. unfold get_timeout, _value_in. by rewrite Hk, Hd.
Qed.

(** ** The attempt loop, one turn at a time *)

Section Loop.
Context (ext : externals) (self : Senderable) (post_attributes : gmap string pyval).

Abbreviation body := (loop_body ext self post_attributes).

Lemma posts_app (t1 t2 : list event) : posts (t1 ++ t2) = posts t1 ++ posts t2.
Proof. apply filter_app. Qed.

Lemma sleeps_app (t1 t2 : list event) : sleeps (t1 ++ t2) = sleeps t1 ++ sleeps t2.
Proof. apply bind_app. Qed.

Lemma enumerate_range n : enumerate (range n) = turns 0 n.
Proof.
  unfold enumerate, range, turns. rewrite length_map, length_seq.
  generalize 0%nat. induction n as [|n IH]; intros a; simpl; [done |].
  by rewrite IH.
Qed.

(** A delivered attempt: the request is made, the outcome is recorded in
    [sending_metadata], and the loop is left. *)
Lemma loop_body_delivered iw s r content :
  request ext self post_attributes (length (posts (trace s))) = Ok r →
  content_utf8 r = Ok content →
  in_2xx (status_code r) = true →
  ∃ s',
    body iw s = (Ok true, s')
    ∧ trace s' = trace s ++ delivered_events self post_attributes iw
    ∧ sending_metadata s' =
        <["success" := VBool true]>
          (<["response" := VStr content]>
             (<["status_code" := VInt (status_code r)]>
                (<["attempt" := VInt (Z.of_nat iw.1 + 1)]> (sending_metadata s))))
    ∧ attempt s' = Z.of_nat iw.1 + 1
    ∧ error s' = error s.
Proof.
  unfold request, delivered_events, request_events, in_2xx.
  destruct (get_url self) as [url|e] eqn:Hurl; simpl; [| discriminate].
  intros Hpost Hcontent Hcode.
  eexists. split.
  - unfold loop_body, try_except, try_body.
    unfold mbind, mret, M_bind, M_ret, lift, modify, get, emit, notify. simpl.
    rewrite Hurl. simpl. rewrite posts_app. simpl. rewrite app_nil_r.
    rewrite Hpost. simpl. rewrite Hcontent. simpl. rewrite Hcode. simpl.
    reflexivity.
  - cbn [trace error attempt sending_metadata record_event set_error
           set_metadata set_response set_response_content set_attempt].
    repeat split. by rewrite <- !app_assoc.
Qed.

Ltac step_monad :=
  unfold loop_body, try_except, try_body, except_body;
  unfold mbind, mret, M_bind, M_ret, lift, modify, get, emit, notify,
    notify_debug, notify_error; simpl;
  repeat (simpl; match goal with
    | H : get_url _ = _ |- _ => rewrite H
    | H : post _ _ _ _ = _ |- _ => rewrite H
    | H : content_utf8 _ = _ |- _ => rewrite H
    | H : (_ <=? _) && (_ <? _) = _ |- _ => rewrite H
    | H : (_ =? _) = _ |- _ => rewrite H
    | |- context [posts (_ ++ _)] => rewrite posts_app
    | |- context [posts [EPrint ?u]] => change (posts [EPrint u]) with (@nil event)
    | |- context [_ ++ []] => rewrite app_nil_r
    end);
  try reflexivity.

Ltac state_simpl :=
  cbn [trace error attempt sending_metadata response response_content
       record_event set_error set_metadata set_response set_response_content
       set_attempt].

Ltac frame_keys :=
  let k := fresh "k" in
  let Hk := fresh "Hk" in
  intros k Hk; rewrite !not_elem_of_cons in Hk;
  destruct Hk as (? & ? & ? & ? & _); by rewrite !lookup_insert_ne.

(** An attempt that is not delivered: the message is kept in [error], the
    notifications follow, then the error log on the last turn and the sleep
    on every other. *)
Lemma loop_body_failed iw s :
  delivered (request ext self post_attributes (length (posts (trace s)))) = false →
  ∃ s',
    body iw s = (Ok false, s')
    ∧ trace s' = trace s ++ failure_events ext self post_attributes iw
    ∧ error s' = VStr (failure_message
                         (request ext self post_attributes (length (posts (trace s)))))
    ∧ attempt s' = Z.of_nat iw.1 + 1
    ∧ sending_metadata s' !! "success" = sending_metadata s !! "success"
    ∧ sending_metadata s' !! "attempt" = Some (VInt (Z.of_nat iw.1 + 1)).
Proof.
  unfold request, delivered, failure_message, failure_events, request_events,
    after_failure, in_2xx.
  destruct (Z.of_nat iw.1 + 1 =? Z.of_nat (length (attempts self)) - 1) eqn:Hlast;
  (destruct (get_url self) as [url|e] eqn:Hurl; simpl;
   [ destruct (post ext (length (posts (trace s))) url post_attributes)
       as [r|e] eqn:Hpost;
     [ destruct (content_utf8 r) as [content|e] eqn:Hcontent |] |]);
  intros Hcode; (eexists; split; [by step_monad |]);
  state_simpl; (split; [by rewrite <- ?app_assoc |]);
  repeat split; by simplify_map_eq.
Qed.

(** Every turn ends normally, starts with the request, posts nothing
    else, and only touches four keys of [sending_metadata]. *)
Lemma loop_body_shape iw s :
  ∃ b s' t,
    body iw s = (Ok b, s')
    ∧ trace s' = trace s ++ request_events self post_attributes ++ t
    ∧ posts t = []
    ∧ ∀ k, k ∉ ["attempt"; "status_code"; "response"; "success"] →
           sending_metadata s' !! k = sending_metadata s !! k.
Proof.
  unfold request_events.
  destruct (Z.of_nat iw.1 + 1 =? Z.of_nat (length (attempts self)) - 1) eqn:Hlast;
  (destruct (get_url self) as [url|e] eqn:Hurl; simpl;
   [ destruct (post ext (length (posts (trace s))) url post_attributes)
       as [r|e] eqn:Hpost;
     [ destruct (content_utf8 r) as [content|e] eqn:Hcontent;
       [ destruct ((200 <=? status_code r) && (status_code r <? 300)) eqn:Hcode |] |] |]);
  (eexists _, _, _; split; [by step_monad |]);
  state_simpl; (split; [by rewrite <- ?app_assoc |]); (split; [reflexivity |]);
  frame_keys.
Qed.

(** ** The loop as a whole *)

Lemma for_each_continue {A} (f : A → M bool) x l s s1 :
  f x s = (Ok false, s1) → for_each f (x :: l) s = for_each f l s1.
Proof. intros H. simpl. unfold mbind, M_bind. by rewrite H. Qed.

Lemma for_each_break {A} (f : A → M bool) x l s s1 :
  f x s = (Ok true, s1) → for_each f (x :: l) s = (Ok tt, s1).
Proof. intros H. simpl. unfold mbind, M_bind. by rewrite H. Qed.

Lemma posts_request_events :
  (length (posts (request_events self post_attributes)) ≤ 1)%nat
  ∧ ∀ url, get_url self = Ok url →
           posts (request_events self post_attributes) = [EPost url post_attributes].
Proof.
  unfold request_events. destruct (get_url self); split; simpl; try lia.
  - by intros ? [= <-].
  - discriminate.
Qed.

Lemma posts_failure_events iw :
  posts (failure_events ext self post_attributes iw)
  = posts (request_events self post_attributes).
Proof.
  unfold failure_events, after_failure. rewrite posts_app.
  destruct (_ =? _); simpl; by rewrite app_nil_r.
Qed.

Lemma sleeps_request_events : sleeps (request_events self post_attributes) = [].
Proof. unfold request_events. by destruct (get_url self). Qed.

Lemma sleeps_failure_events iw :
  sleeps (failure_events ext self post_attributes iw)
  = if Z.of_nat iw.1 + 1 =? Z.of_nat (length (attempts self)) - 1 then [] else [iw.2].
Proof.
  unfold failure_events, after_failure.
  rewrite sleeps_app, sleeps_request_events. by destruct (_ =? _).
Qed.

Lemma sleeps_delivered_events iw :
  sleeps (delivered_events self post_attributes iw) = [].
Proof.
  unfold delivered_events. by rewrite sleeps_app, sleeps_request_events.
Qed.

(** No turn raises, so the loop ends normally whatever the receiver
    does; it makes at most one POST per turn and leaves every key of
    [sending_metadata] but four alone. *)
Lemma for_each_shape items s :
  ∃ s' t,
    for_each body items s = (Ok tt, s')
    ∧ trace s' = trace s ++ t
    ∧ (length (posts t) ≤ length items)%nat
    ∧ ∀ k, k ∉ ["attempt"; "status_code"; "response"; "success"] →
           sending_metadata s' !! k = sending_metadata s !! k.
Proof.
  revert s. induction items as [|iw items IH]; intros s.
  - exists s, []. simpl. rewrite app_nil_r. repeat split; auto.
  - destruct (loop_body_shape iw s) as (b & s1 & t1 & Hrun & Htrace & Hposts & Hframe).
    destruct posts_request_events as [Hle _].
    destruct b.
    + exists s1, (request_events self post_attributes ++ t1).
      rewrite (for_each_break _ _ _ _ _ Hrun). repeat split; auto.
      rewrite posts_app, Hposts, app_nil_r. simpl. lia.
    + destruct (IH s1) as (s' & t & Hrest & Htrace' & Hposts' & Hframe').
      exists s', ((request_events self post_attributes ++ t1) ++ t).
      rewrite (for_each_continue _ _ _ _ _ Hrun). split; [exact Hrest |].
      split; [by rewrite Htrace', Htrace, <- !app_assoc |].
      split.
      * rewrite !posts_app, Hposts, app_nil_r, length_app. simpl. lia.
      * intros k Hk. by rewrite Hframe', Hframe.
Qed.

Lemma request_calls (c a : nat) :
  (∀ url, get_url self = Ok url → c = a) →
  request ext self post_attributes c = request ext self post_attributes a.
Proof.
  intros H. unfold request. destruct (get_url self) as [url|]; [| done].
  by rewrite (H url eq_refl).
Qed.

(** [m] turns in a row that are not delivered, from index [a] on. *)
Lemma loop_failures m : ∀ a s rest,
  (∀ url, get_url self = Ok url → length (posts (trace s)) = a) →
  (∀ j, (a ≤ j < a + m)%nat →
        delivered (request ext self post_attributes j) = false) →
  ∃ s',
    for_each body (turns a m ++ rest) s = for_each body rest s'
    ∧ trace s' = trace s ++ (turns a m ≫= failure_events ext self post_attributes)
    ∧ (∀ url, get_url self = Ok url → length (posts (trace s')) = (a + m)%nat)
    ∧ sending_metadata s' !! "success" = sending_metadata s !! "success"
    ∧ (m = 0%nat → s' = s)
    ∧ ((0 < m)%nat →
       attempt s' = Z.of_nat (a + m)
       ∧ error s' = VStr (failure_message
                            (request ext self post_attributes (a + m - 1)))
       ∧ sending_metadata s' !! "attempt" = Some (VInt (Z.of_nat (a + m)))).
Proof.
  induction m as [|m IH]; intros a s rest Hcalls Hfail.
  - exists s. simpl. rewrite app_nil_r, Nat.add_0_r. repeat split; auto; lia.
  - assert (delivered (request ext self post_attributes (length (posts (trace s))))
            = false) as Hd.
    { rewrite (request_calls _ a Hcalls). apply Hfail. lia. }
    destruct (loop_body_failed (a, Z.of_nat a) s Hd)
      as (s1 & Hrun & Htrace & Herr & Hatt & Hsucc & Hmeta).
    assert (∀ url, get_url self = Ok url → length (posts (trace s1)) = S a) as Hcalls1.
    { intros url Hurl. rewrite Htrace, posts_app, length_app, posts_failure_events.
      destruct posts_request_events as [_ Hp]. rewrite (Hp url Hurl).
      rewrite (Hcalls url Hurl). simpl. lia. }
    destruct (IH (S a) s1 rest Hcalls1)
      as (s' & Hrest & Htrace' & Hcalls' & Hsucc' & Hsame & Hlast).
    { intros j Hj. apply Hfail. lia. }
    exists s'. change (turns a (S m)) with ((a, Z.of_nat a) :: turns (S a) m).
    split.
    { rewrite <- app_comm_cons. by rewrite (for_each_continue _ _ _ _ _ Hrun). }
    split.
    { rewrite Htrace', Htrace. simpl. by rewrite <- app_assoc. }
    split.
    { intros url Hurl. rewrite (Hcalls' url Hurl). lia. }
    split; [by rewrite Hsucc', Hsucc |].
    split; [discriminate |].
    intros _. destruct m as [|m].
    + rewrite (Hsame eq_refl). simpl in Hatt, Hmeta.
      rewrite (request_calls _ a Hcalls) in Herr.
      replace (a + 1 - 1)%nat with a by lia.
      replace (Z.of_nat (a + 1)) with (Z.of_nat a + 1) by lia.
      by rewrite Hatt, Herr, Hmeta.
    + destruct Hlast as (Ha & He & Hm); [lia |].
      replace (a + S (S m))%nat with (S a + S m)%nat by lia.
      by rewrite Ha, He, Hm.
Qed.
End Loop.

(** ** A whole send *)

Section Run.
Context (ext : externals) (self : Senderable).

Lemma run_raises_early e :
  build_post_attributes ext self = Raise e →
  run ext self = (Raise e, loop_start).
Proof.
  intros H. unfold run, send, _send, mbind, M_bind, lift, modify. simpl.
  by rewrite H.
Qed.

Lemma run_after_loop post_attributes s1 :
  build_post_attributes ext self = Ok post_attributes →
  for_each (loop_body ext self post_attributes)
           (turns 0 (length (attempts self) - 1)) loop_start = (Ok tt, s1) →
  run ext self = report self post_attributes s1.
Proof.
  intros Hbuild Hloop. unfold run, send, _send, mbind, M_bind, lift, modify. simpl.
  rewrite Hbuild, enumerate_range. fold loop_start. by rewrite Hloop.
Qed.

Lemma report_run post_attributes s :
  report self post_attributes s =
  ( (fun d => d ∪ <["post_attributes" :=
                      VDict (reported_attributes self post_attributes d)]>
                    (<["error" := final_error s]> (sending_metadata s)))
      <$> payload_mapping self,
    set_metadata "post_attributes" (VDict post_attributes)
      (set_metadata "error" (final_error s) s) ).
Proof.
  unfold report, mbind, mret, M_bind, M_ret, lift, modify, get. simpl.
  unfold reported_attributes, final_error.
  destruct (payload_mapping self) as [d|e]; simpl; [| reflexivity].
  destruct (data_is_payload self && negb (is_string (get_payload self))); simpl.
  - by rewrite insert_insert_eq.
  - reflexivity.
Qed.

Lemma trace_after_report post_attributes s :
  trace (report self post_attributes s).2 = trace s.
Proof. by rewrite report_run. Qed.

Lemma turns_app a m p : turns a (m + p) = turns a m ++ turns (a + m) p.
Proof. unfold turns. by rewrite seq_app, map_app. Qed.

Lemma turns_cons a m : turns a (S m) = (a, Z.of_nat a) :: turns (S a) m.
Proof. reflexivity. Qed.

(** On turns that are not the last one the wait slept is the index. *)
Lemma sleeps_failures post_attributes m : ∀ a,
  (a + m ≤ length (attempts self) - 2)%nat →
  sleeps (turns a m ≫= failure_events ext self post_attributes)
  = map Z.of_nat (seq a m).
Proof.
  induction m as [|m IH]; intros a Hle; [reflexivity |].
  rewrite turns_cons. simpl. rewrite sleeps_app, sleeps_failure_events. simpl.
  rewrite IH by lia.
  destruct (Z.eqb_spec (Z.of_nat a + 1) (Z.of_nat (length (attempts self)) - 1));
    [lia | reflexivity].
Qed.

(** Whatever the receiver does, a send that got past its settings runs
    its loop to the end and reports. *)
Lemma run_shape post_attributes :
  build_post_attributes ext self = Ok post_attributes →
  ∃ s1,
    run ext self = report self post_attributes s1
    ∧ (length (posts (trace s1)) ≤ length (attempts self) - 1)%nat
    ∧ ∀ k, k ∉ ["attempt"; "status_code"; "response"; "success"] →
           sending_metadata s1 !! k = sending_metadata loop_start !! k.
Proof.
  intros Hbuild.
  destruct (for_each_shape ext self post_attributes
              (turns 0 (length (attempts self) - 1)) loop_start)
    as (s1 & t & Hloop & Htrace & Hposts & Hframe).
  exists s1. split; [by apply run_after_loop |]. split; [| exact Hframe].
  rewrite Htrace. simpl. unfold turns in Hposts.
  by rewrite length_map, length_seq in Hposts.
Qed.

Lemma posts_bounded :
  (length (posts (trace (run ext self).2)) ≤ length (attempts self) - 1)%nat.
Proof.
  destruct (build_post_attributes ext self) as [pa|e] eqn:Hbuild.
  - destruct (run_shape pa Hbuild) as (s1 & -> & Hposts & _).
    by rewrite trace_after_report.
  - rewrite (run_raises_early e Hbuild). simpl. lia.
Qed.

(** [k] turns that are not delivered, then whatever follows. *)
Lemma run_failed_prefix post_attributes k :
  build_post_attributes ext self = Ok post_attributes →
  (k ≤ length (attempts self) - 1)%nat →
  (∀ j, (j < k)%nat → delivered (request ext self post_attributes j) = false) →
  ∃ s1 t,
    run ext self = report self post_attributes s1
    ∧ trace s1 = (turns 0 k ≫= failure_events ext self post_attributes) ++ t
    ∧ ((k < length (attempts self) - 1)%nat →
       ∃ t', t = request_events self post_attributes ++ t').
Proof.
  intros Hbuild Hk Hfail.
  destruct (loop_failures ext self post_attributes k 0 loop_start
              (turns k (length (attempts self) - 1 - k)))
    as (s' & Hrun & Htrace & _); [done | intros j Hj; apply Hfail; lia |].
  rewrite <- (turns_app 0 k) in Hrun.
  replace (k + (length (attempts self) - 1 - k))%nat
    with (length (attempts self) - 1)%nat in Hrun by lia.
  simpl in Htrace.
  destruct (length (attempts self) - 1 - k)%nat as [|p] eqn:Hp.
  - exists s', []. simpl in Hrun. split; [by apply run_after_loop |].
    split; [by rewrite app_nil_r |]. lia.
  - rewrite turns_cons in Hrun.
    destruct (loop_body_shape ext self post_attributes (k, Z.of_nat k) s')
      as (b & s2 & t2 & Hstep & Htrace2 & _).
    destruct b.
    + rewrite (for_each_break _ _ _ _ _ Hstep) in Hrun.
      exists s2, (request_events self post_attributes ++ t2).
      split; [by apply run_after_loop |].
      split; [by rewrite Htrace2, Htrace | eauto].
    + rewrite (for_each_continue _ _ _ _ _ Hstep) in Hrun.
      destruct (for_each_shape ext self post_attributes (turns (S k) p) s2)
        as (s3 & t3 & Hrest & Htrace3 & _).
      rewrite Hrest in Hrun.
      exists s3, (request_events self post_attributes ++ t2 ++ t3).
      split; [by apply run_after_loop |].
      split; [by rewrite Htrace3, Htrace2, Htrace, <- !app_assoc | eauto].
Qed.

(** [k - 1] turns that are not delivered, then one that is. *)
Lemma run_delivered post_attributes k r content :
  build_post_attributes ext self = Ok post_attributes →
  (1 ≤ k ≤ length (attempts self) - 1)%nat →
  (∀ j, (j < k - 1)%nat → delivered (request ext self post_attributes j) = false) →
  request ext self post_attributes (k - 1) = Ok r →
  content_utf8 r = Ok content →
  in_2xx (status_code r) = true →
  ∃ s1,
    run ext self = report self post_attributes s1
    ∧ trace s1 = (turns 0 (k - 1) ≫= failure_events ext self post_attributes)
                 ++ delivered_events self post_attributes (k - 1, Z.of_nat (k - 1))%nat
    ∧ sending_metadata s1 !! "success" = Some (VBool true)
    ∧ sending_metadata s1 !! "attempt" = Some (VInt (Z.of_nat k))
    ∧ sending_metadata s1 !! "status_code" = Some (VInt (status_code r))
    ∧ sending_metadata s1 !! "response" = Some (VStr content).
Proof.
  intros Hbuild Hk Hfail Hreq Hcontent Hcode.
  destruct (loop_failures ext self post_attributes (k - 1) 0 loop_start
              (turns (k - 1) (length (attempts self) - 1 - (k - 1))))
    as (s' & Hrun & Htrace & Hcalls & _); [done | intros j Hj; apply Hfail; lia |].
  rewrite <- (turns_app 0 (k - 1)) in Hrun.
  replace (k - 1 + (length (attempts self) - 1 - (k - 1)))%nat
    with (length (attempts self) - 1)%nat in Hrun by lia.
  replace (length (attempts self) - 1 - (k - 1))%nat
    with (S (length (attempts self) - 1 - k)) in Hrun by lia.
  rewrite turns_cons in Hrun. simpl in Htrace, Hcalls.
  rewrite <- (request_calls ext self post_attributes
                (length (posts (trace s'))) (k - 1) Hcalls) in Hreq.
  destruct (loop_body_delivered ext self post_attributes
              (k - 1, Z.of_nat (k - 1))%nat s' r content Hreq Hcontent Hcode)
    as (s1 & Hstep & Htrace1 & Hmeta & _).
  rewrite (for_each_break _ _ _ _ _ Hstep) in Hrun.
  exists s1. split; [by apply run_after_loop |].
  split; [by rewrite Htrace1, Htrace |].
  rewrite Hmeta. simpl.
  replace (Z.of_nat (k - 1) + 1) with (Z.of_nat k) by lia.
  repeat split; by simplify_map_eq.
Qed.

(** Every turn fails. *)
Lemma run_exhausted post_attributes :
  build_post_attributes ext self = Ok post_attributes →
  (2 ≤ length (attempts self))%nat →
  (∀ j, (j < length (attempts self) - 1)%nat →
        delivered (request ext self post_attributes j) = false) →
  ∃ s1,
    run ext self = report self post_attributes s1
    ∧ trace s1 = (turns 0 (length (attempts self) - 1)
                    ≫= failure_events ext self post_attributes)
    ∧ sending_metadata s1 !! "success" = Some (VBool false)
    ∧ sending_metadata s1 !! "attempt"
      = Some (VInt (Z.of_nat (length (attempts self) - 1)))
    ∧ error s1 = VStr (failure_message
                         (request ext self post_attributes
                                  (length (attempts self) - 2))).
Proof.
  intros Hbuild Hlen Hfail.
  destruct (loop_failures ext self post_attributes (length (attempts self) - 1) 0
              loop_start [])
    as (s1 & Hrun & Htrace & _ & Hsucc & _ & Hlast);
    [done | intros j Hj; apply Hfail; lia |].
  rewrite app_nil_r in Hrun. simpl in Hrun, Htrace, Hlast.
  destruct Hlast as (_ & Herr & Hatt); [lia |].
  exists s1. split; [by apply run_after_loop |].
  split; [exact Htrace |]. split; [by rewrite Hsucc |].
  split; [exact Hatt |].
  rewrite Herr. do 3 f_equal. lia.
Qed.
End Run.

(** ** What a send reports *)

Section Claims.
Context (ext : externals) (self : Senderable).

Lemma request_url post_attributes url j :
  get_url self = Ok url →
  request ext self post_attributes j = post ext j url post_attributes.
Proof. intros H. unfold request. by rewrite H. Qed.

Lemma reports_after_loop post_attributes s1 key v :
  run ext self = report self post_attributes s1 →
  key ≠ "post_attributes" →
  <["error" := final_error s1]> (sending_metadata s1) !! key = Some v →
  reports self (run ext self) key v.
Proof.
  intros -> Hkey Hv. rewrite report_run. unfold reports. simpl. split.
  - by rewrite lookup_insert_ne.
  - intros d ->. simpl. eexists. split; [reflexivity |].
    intros Hd. rewrite lookup_union_r by done. by rewrite lookup_insert_ne.
Qed.

Lemma final_error_delivered s :
  sending_metadata s !! "success" = Some (VBool true) → final_error s = VNone.
Proof. intros H. unfold final_error, dict_get. by rewrite H. Qed.

Lemma final_error_failed s msg :
  sending_metadata s !! "success" = Some (VBool false) →
  error s = VStr msg →
  final_error s = if bool_decide (msg = EmptyString) then VNone else VStr msg.
Proof.
  intros Hs He. unfold final_error, dict_get. rewrite Hs, He. simpl.
  by destruct (bool_decide (msg = EmptyString)).
Qed.

Lemma posts_failures post_attributes url m : ∀ a,
  get_url self = Ok url →
  length (posts (turns a m ≫= failure_events ext self post_attributes)) = m.
Proof.
  intros a Hurl. revert a. induction m as [|m IH]; intros a; [reflexivity |].
  rewrite turns_cons. simpl. rewrite posts_app, length_app, IH.
  rewrite posts_failure_events.
  destruct (posts_request_events self post_attributes) as [_ Hp].
  by rewrite (Hp url Hurl).
Qed.

(** C5, amended. At most N-1 POSTs are made for a schedule of length N. If
    the k-th attempt (1 <= k <= N-1, the earlier ones not delivered) comes
    back with a status in [200,300) and a body that decodes as UTF-8, the
    loop ends there: success is true, attempt is k, status_code is that
    status and response is the decoded body (not the [text] attribute);
    k POSTs and the k-1 sleeps between them were made, and the trace ends
    with the request and the success notification of that attempt. *)
Theorem delivered_attempt_ends_loop :
  (length (posts (trace (run ext self).2)) ≤ length (attempts self) - 1)%nat
  ∧ ∀ post_attributes url k r content,
      build_post_attributes ext self = Ok post_attributes →
      get_url self = Ok url →
      (1 ≤ k ≤ length (attempts self) - 1)%nat →
      (∀ j, (j < k - 1)%nat → delivered (post ext j url post_attributes) = false) →
      post ext (k - 1) url post_attributes = Ok r →
      content_utf8 r = Ok content →
      200 ≤ status_code r < 300 →
      reports self (run ext self) "success" (VBool true)
      ∧ reports self (run ext self) "attempt" (VInt (Z.of_nat k))
      ∧ reports self (run ext self) "status_code" (VInt (status_code r))
      ∧ reports self (run ext self) "response" (VStr content)
      ∧ reports self (run ext self) "error" VNone
      ∧ length (posts (trace (run ext self).2)) = k
      ∧ sleeps (trace (run ext self).2) = range (k - 1)
      ∧ ∃ t, trace (run ext self).2
             = t ++ delivered_events self post_attributes (k - 1, Z.of_nat (k - 1))%nat.
Proof.
  split; [apply posts_bounded |].
  intros pa url k r content Hbuild Hurl Hk Hfail Hpost Hcontent Hcode.
  destruct (run_delivered ext self pa k r content Hbuild Hk)
    as (s1 & Hrun & Htrace & Hsucc & Hatt & Hstatus & Hresp); auto.
  { intros j Hj. rewrite (request_url pa url j Hurl). by apply Hfail. }
  { by rewrite (request_url pa url _ Hurl). }
  { unfold in_2xx. apply andb_true_iff. split; [apply Z.leb_le | apply Z.ltb_lt]; lia. }
  pose proof (final_error_delivered s1 Hsucc) as Herr.
  do 5 (split; [apply (reports_after_loop pa s1);
                  [exact Hrun | done | rewrite Herr; by simplify_map_eq] |]).
  split; [| split].
  - rewrite Hrun, trace_after_report, Htrace, posts_app, length_app.
    rewrite (posts_failures pa url _ _ Hurl). unfold delivered_events.
    rewrite posts_app.
    destruct (posts_request_events self pa) as [_ Hp]. rewrite (Hp url Hurl).
    simpl. lia.
  - rewrite Hrun, trace_after_report, Htrace, sleeps_app, sleeps_delivered_events.
    rewrite app_nil_r. apply sleeps_failures. lia.
  - rewrite Hrun, trace_after_report, Htrace. eauto.
Qed.

Lemma run_raises_only_from_payload post_attributes e :
  build_post_attributes ext self = Ok post_attributes →
  (run ext self).1 = Raise e → payload_mapping self = Raise e.
Proof.
  intros Hbuild. destruct (run_shape ext self post_attributes Hbuild) as (s1 & -> & _).
  rewrite report_run. simpl. by destruct (payload_mapping self); intros [=]; subst.
Qed.

Lemma sleeps_exhausted post_attributes :
  (2 ≤ length (attempts self))%nat →
  sleeps (turns 0 (length (attempts self) - 1)
            ≫= failure_events ext self post_attributes)
  = range (length (attempts self) - 2).
Proof.
  intros Hlen.
  replace (length (attempts self) - 1)%nat
    with (length (attempts self) - 2 + 1)%nat by lia.
  rewrite turns_app, bind_app, sleeps_app, sleeps_failures by lia.
  simpl. rewrite app_nil_r, sleeps_failure_events. simpl.
  destruct (Z.eqb_spec (Z.of_nat (length (attempts self) - 2) + 1)
                       (Z.of_nat (length (attempts self)) - 1)); [| lia].
  by rewrite app_nil_r.
Qed.

(** C6, amended. When all N-1 attempts of a schedule of length N >= 2 fail,
    the send reports success false, attempt N-1, and under error the
    message of the last failure when that message is not empty, null when
    it is empty. The loop raises nothing: once the request attributes are
    built, the only exception a send can end in comes from merging a
    payload that is not a mapping. One sleep was made after each attempt
    but the last. *)
Theorem exhausted_schedule_reports_failure post_attributes :
  build_post_attributes ext self = Ok post_attributes →
  (2 ≤ length (attempts self))%nat →
  (∀ j, (j < length (attempts self) - 1)%nat →
        delivered (request ext self post_attributes j) = false) →
  let msg := failure_message
               (request ext self post_attributes (length (attempts self) - 2)) in
  reports self (run ext self) "success" (VBool false)
  ∧ reports self (run ext self) "attempt"
      (VInt (Z.of_nat (length (attempts self) - 1)))
  ∧ reports self (run ext self) "error"
      (if bool_decide (msg = EmptyString) then VNone else VStr msg)
  ∧ (∀ e, (run ext self).1 = Raise e → payload_mapping self = Raise e)
  ∧ sleeps (trace (run ext self).2) = range (length (attempts self) - 2).
Proof.
  intros Hbuild Hlen Hfail msg.
  destruct (run_exhausted ext self post_attributes Hbuild Hlen Hfail)
    as (s1 & Hrun & Htrace & Hsucc & Hatt & Herr).
  pose proof (final_error_failed s1 _ Hsucc Herr) as Hfinal.
  do 3 (split; [apply (reports_after_loop post_attributes s1);
                  [exact Hrun | done | rewrite Hfinal; by simplify_map_eq] |]).
  split.
  - intros e. by apply run_raises_only_from_payload with post_attributes.
  - rewrite Hrun, trace_after_report, Htrace. by apply sleeps_exhausted.
Qed.

(** Of the schedule only the length is read: two schedules of the same
    length give the same send, event for event. *)
Lemma run_reads_schedule_length_only schedule :
  length schedule = length (attempts self) →
  run ext (with_attempts self schedule) = run ext self.
Proof.
  intros Hlen. unfold run, send, _send, loop_body, with_attempts. simpl.
  rewrite Hlen. reflexivity.
Qed.

(** What line 183 sleeps. After each failed attempt k that is not the
    last (1 <= k <= N-2) the loop sleeps for k-1, the index of the turn,
    and not for a value of the schedule: the sleep closes the events of
    that attempt, one sleep was made for each earlier attempt, and the
    request of the next attempt follows. If that next attempt is
    delivered, the sleeps of the whole send are 0, 1, ..., k-1. *)
Theorem sleep_after_failed_attempt post_attributes k :
  build_post_attributes ext self = Ok post_attributes →
  (1 ≤ k ≤ length (attempts self) - 2)%nat →
  (∀ j, (j < k)%nat → delivered (request ext self post_attributes j) = false) →
  after_failure ext self (k - 1, Z.of_nat (k - 1))%nat = ESleep (Z.of_nat k - 1)
  ∧ (∃ t0 t1,
       trace (run ext self).2
       = t0 ++ failure_events ext self post_attributes (k - 1, Z.of_nat (k - 1))%nat
            ++ request_events self post_attributes ++ t1
       ∧ sleeps t0 = range (k - 1))
  ∧ (delivered (request ext self post_attributes k) = true →
     sleeps (trace (run ext self).2) = range k).
Proof.
  intros Hbuild Hk Hfail. split; [| split].
  - unfold after_failure. simpl.
    destruct (Z.eqb_spec (Z.of_nat (k - 1) + 1)
                         (Z.of_nat (length (attempts self)) - 1)); [lia |].
    f_equal. lia.
  - destruct (run_failed_prefix ext self post_attributes k Hbuild)
      as (s1 & t & Hrun & Htrace & Hnext); [lia | done |].
    destruct Hnext as [t' ->]; [lia |].
    exists (turns 0 (k - 1) ≫= failure_events ext self post_attributes), t'.
    split; [| apply sleeps_failures; lia].
    rewrite Hrun, trace_after_report, Htrace.
    replace k with (k - 1 + 1)%nat at 1 by lia.
    rewrite turns_app, bind_app. simpl. by rewrite app_nil_r, <- !app_assoc.
  - intros Hd. unfold delivered in Hd.
    destruct (request ext self post_attributes k) as [r|] eqn:Hreq; [| done].
    destruct (content_utf8 r) as [content|] eqn:Hcontent; [| done].
    destruct (run_delivered ext self post_attributes (S k) r content Hbuild)
      as (s1 & Hrun & Htrace & _); auto.
    { lia. }
    { intros j Hj. apply Hfail. lia. }
    { by replace (S k - 1)%nat with k by lia. }
    rewrite Hrun, trace_after_report, Htrace, sleeps_app, sleeps_delivered_events.
    rewrite app_nil_r. replace (S k - 1)%nat with k by lia.
    apply sleeps_failures. lia.
Qed.
End Claims.

(** The scenario of the specification: schedule [0, 1, 0], status 500 on the
    first attempt, 200 on the second. *)
Lemma scenario_attributes :
  build_post_attributes (stub_externals fails_once) scenario_sender
  = Ok raw_json_attributes.
Proof. vm_compute. reflexivity. Qed.

Lemma delivered_attempt_ends_loop_witness :
  let res := run (stub_externals fails_once) scenario_sender in
  reports scenario_sender res "success" (VBool true)
  ∧ reports scenario_sender res "attempt" (VInt 2)
  ∧ reports scenario_sender res "status_code" (VInt 200)
  ∧ reports scenario_sender res "response" (VStr "OK")
  ∧ reports scenario_sender res "error" VNone
  ∧ length (posts (trace res.2)) = 2%nat
  ∧ sleeps (trace res.2) = range 1
  ∧ ∃ t, trace res.2 = t ++ delivered_events scenario_sender raw_json_attributes (1%nat, 1).
Proof.
  destruct (delivered_attempt_ends_loop (stub_externals fails_once) scenario_sender)
    as [_ H].
  apply (H raw_json_attributes (VStr "https://example.test/hook") 2%nat
           (response_of 200 "OK") "OK").
  - vm_compute. reflexivity.
  - reflexivity.
  - simpl. lia.
  - intros j Hj. simpl in Hj. assert (j = 0%nat) as -> by lia. reflexivity.
  - reflexivity.
  - reflexivity.
  - simpl. lia.
Defined.

Lemma one_shot_attributes msg :
  build_post_attributes (stub_externals (refuses msg)) one_shot_sender
  = Ok raw_json_attributes.
Proof. vm_compute. reflexivity. Qed.

(** The exhaustion scenario of the specification: schedule [0, 0], the one
    attempt raises a connection error. *)
Lemma exhausted_schedule_reports_failure_witness :
  let res := run (stub_externals (refuses "Connection refused")) one_shot_sender in
  reports one_shot_sender res "success" (VBool false)
  ∧ reports one_shot_sender res "attempt" (VInt 1)
  ∧ reports one_shot_sender res "error" (VStr "Connection refused")
  ∧ (∀ e, res.1 = Raise e → payload_mapping one_shot_sender = Raise e)
  ∧ sleeps (trace res.2) = [].
Proof.
  refine (exhausted_schedule_reports_failure
            (stub_externals (refuses "Connection refused")) one_shot_sender
            raw_json_attributes _ _ _).
  - vm_compute. reflexivity.
  - simpl. lia.
  - intros j Hj. reflexivity.
Defined.

(** C6 as stated fails when the last failure has an empty message: error is
    then null, not the empty string. *)
Lemma exhausted_claim_fails_on_empty_message :
  let ext := stub_externals (refuses EmptyString) in
  let res := run ext one_shot_sender in
  failure_message (request ext one_shot_sender raw_json_attributes 0) = EmptyString
  ∧ (.!! "error") <$> res.1 = Ok (Some VNone)
  ∧ (.!! "error") <$> res.1 ≠ Ok (Some (VStr EmptyString)).
Proof.
  split; [reflexivity |]. split; [vm_compute; reflexivity |].
  vm_compute. discriminate.
Qed.

Lemma sleep_after_failed_attempt_witness :
  sleeps (trace (run (stub_externals fails_once) scenario_sender).2) = [0].
Proof.
  refine (proj2 (proj2 (sleep_after_failed_attempt
            (stub_externals fails_once) scenario_sender raw_json_attributes 1 _ _ _)) _).
  - vm_compute. reflexivity.
  - simpl. lia.
  - intros j Hj. assert (j = 0%nat) as -> by lia. reflexivity.
  - reflexivity.
Defined.

(** C1 at the scenario of the specification: with schedule [0, 1, 0], a
    first attempt that fails and a second that is delivered, the one sleep
    lasts 0, not the 1 the schedule holds for it. Line 133 binds [wait] to
    the index of the turn, and line 183 sleeps on it. *)
Lemma sleep_is_not_schedule_value :
  attempts scenario_sender = [0; 1; 0]
  ∧ delivered (fails_once 0) = false
  ∧ delivered (fails_once 1) = true
  ∧ sleeps (trace (run (stub_externals fails_once) scenario_sender).2) = [0]
  ∧ sleeps (trace (run (stub_externals fails_once) scenario_sender).2) ≠ [1].
Proof.
  repeat split; try reflexivity. vm_compute. discriminate.
Qed.

(** C5 as stated fails in two ways. A 200 response whose body does not
    decode as UTF-8 is counted as a failure; and what is stored under
    response is the decoded content, which need not be [text]. *)
Lemma delivered_claim_fails_on_body_decoding :
  (let ext := stub_externals (fun _ => Ok undecodable_200) in
   let res := run ext one_shot_sender in
   post ext 0 (VStr "https://example.test/hook") raw_json_attributes
   = Ok undecodable_200
   ∧ status_code undecodable_200 = 200
   ∧ sending_metadata res.2 !! "success" = Some (VBool false)
   ∧ (.!! "success") <$> res.1 = Ok (Some (VBool false)))
  ∧ (let ext := stub_externals (fun _ => Ok latin1_200) in
     let res := run ext one_shot_sender in
     post ext 0 (VStr "https://example.test/hook") raw_json_attributes
     = Ok latin1_200
     ∧ status_code latin1_200 = 200
     ∧ (.!! "success") <$> res.1 = Ok (Some (VBool true))
     ∧ (.!! "response") <$> res.1 ≠ Ok (Some (VStr (text latin1_200)))).
Proof.
  split.
  - repeat split; vm_compute; reflexivity.
  - split; [reflexivity |]. split; [reflexivity |].
    split; [vm_compute; reflexivity |]. vm_compute. discriminate.
Qed.

(** ** The signature *)

Section Signature.
Context (ext : externals).

(** What [create_signature] computes: the SHA-256 digest of the secret
    followed by the body, a mapping being form-encoded first. *)
Lemma create_signature_text body secret :
  create_signature ext (VStr body) (VStr secret)
  = Ok ("sha256=" +:+ SHA256.hex
          (SHA256.hash (encode_utf8 secret ++ encode_utf8 body))).
Proof. reflexivity. Qed.

Lemma create_signature_mapping d secret :
  create_signature ext (VDict d) (VStr secret)
  = Ok ("sha256=" +:+ SHA256.hex
          (SHA256.hash (encode_utf8 secret ++ encode_utf8 (urlencode ext d)))).
Proof. reflexivity. Qed.

Lemma hex_length r : String.length (SHA256.hex r) = 64%nat.
Proof. reflexivity. Qed.

(** Whatever is signed, a signature is the prefix and 64 characters. *)
Lemma create_signature_shape payload secret sig :
  create_signature ext payload secret = Ok sig →
  ∃ r, sig = "sha256=" +:+ SHA256.hex r ∧ String.length (SHA256.hex r) = 64%nat.
Proof.
  unfold create_signature.
  destruct (encode secret) as [k|]; simpl; [| discriminate].
  destruct (encode _) as [p|]; simpl; [| discriminate].
  intros [= <-]. exists (SHA256.hash (k ++ p)). split; reflexivity.
Qed.
End Signature.

(** The digits are the lowercase hexadecimal ones. *)
Lemma hex_digit_lowercase x :
  SHA256.hex_digit (Z.land x 15)
  ∈ String.list_ascii_of_string "0123456789abcdef".
Proof.
  assert (0 ≤ Z.land x 15 < 16) as Hx.
  { change 15 with (Z.ones 4). rewrite Z.land_ones by lia.
    apply Z.mod_pos_bound. lia. }
  generalize dependent (Z.land x 15). intros y Hy.
  assert (y = 0 ∨ y = 1 ∨ y = 2 ∨ y = 3 ∨ y = 4 ∨ y = 5 ∨ y = 6 ∨ y = 7 ∨ y = 8
          ∨ y = 9 ∨ y = 10 ∨ y = 11 ∨ y = 12 ∨ y = 13 ∨ y = 14 ∨ y = 15) as Hcases
    by lia.
  clear Hy.
  repeat (destruct Hcases as [Hcases | Hcases];
          [rewrite Hcases; vm_compute; repeat constructor |]).
  rewrite Hcases. vm_compute. repeat constructor.
Qed.

Lemma hex_lowercase r :
  Forall (fun c => c ∈ String.list_ascii_of_string "0123456789abcdef")
         (String.list_ascii_of_string (SHA256.hex r)).
Proof.
  unfold SHA256.hex, SHA256.words, SHA256.hex_word.
  cbn [fold_right String.list_ascii_of_string].
  repeat (apply Forall_cons; split; [apply hex_digit_lowercase |]).
  apply Forall_nil. exact I.
Qed.

(** C2 at the input of the specification: body the JSON text with a = 1,
    secret the word secret. The code returns the plain SHA-256 digest of the
    secret followed by the body; HMAC-SHA256 keyed by the secret gives
    another value. *)
Theorem create_signature_is_not_hmac :
  create_signature (stub_externals (refuses EmptyString)) (VStr json_body) (VStr "secret")
  = Ok "sha256=37bd34e4b292ef9df8bfe70e3f50526139249490c3c2594cf20175ba7665e01d"
  ∧ spec_signature json_body "secret"
    = "sha256=aa9e2e3575f5d7098b6caccd790888c36d5fdb63342a73bada2d6a51747a8494"
  ∧ create_signature (stub_externals (refuses EmptyString)) (VStr json_body) (VStr "secret")
    ≠ Ok (spec_signature json_body "secret").
Proof.
  split; [vm_compute; reflexivity |]. split; [vm_compute; reflexivity |].
  vm_compute. discriminate.
Qed.

(** The digest itself agrees with the published test vector for abc. *)
Example sha256_abc :
  SHA256.hexdigest (SHA256.new (encode_utf8 "abc"))
  = "ba7816bf8f01cfea414140de5dae2223b00361a396177a9cb410ff61f20015ad".
Proof. vm_compute. reflexivity. Qed.

Example sha256_update_appends :
  SHA256.hexdigest (SHA256.update (SHA256.new (encode_utf8 "a")) (encode_utf8 "bc"))
  = SHA256.hexdigest (SHA256.new (encode_utf8 "abc")).
Proof. reflexivity. Qed.

(** ** The outcome *)

Section Outcome.
Context (ext : externals) (self : Senderable).

Lemma payload_mapping_string s :
  get_payload self = VStr s →
  ∃ d, payload_mapping self = Ok d ∧ d !! "payload" = Some (VStr s).
Proof.
  intros Hp. unfold payload_mapping. rewrite Hp. simpl.
  destruct (hash_value self) as [h|]; simpl.
  - destruct (0 <? String.length h)%nat; simpl; eexists; split; try reflexivity;
      by simplify_map_eq.
  - eexists; split; [reflexivity | by simplify_map_eq].
Qed.

Lemma payload_mapping_dict d0 :
  get_payload self = VDict d0 →
  payload_mapping self
  = Ok (match hash_value self with
        | Some h => if (0 <? String.length h)%nat then <["hash" := VStr h]> d0 else d0
        | None => d0
        end).
Proof.
  intros Hp. unfold payload_mapping. rewrite Hp. simpl.
  destruct (hash_value self) as [h|]; simpl; [| reflexivity].
  by destruct (0 <? String.length h)%nat.
Qed.


(** A returned mapping is the payload's mapping laid over the metadata. *)
Lemma run_returns o :
  (run ext self).1 = Ok o →
  ∃ post_attributes s1 d,
    build_post_attributes ext self = Ok post_attributes
    ∧ run ext self = report self post_attributes s1
    ∧ payload_mapping self = Ok d
    ∧ o = d ∪ <["post_attributes" := VDict (reported_attributes self post_attributes d)]>
                (<["error" := final_error s1]> (sending_metadata s1))
    ∧ sending_metadata s1 !! "hash" = None.
Proof.
  intros Hrun.
  destruct (build_post_attributes ext self) as [pa|e] eqn:Hbuild.
  - destruct (run_shape ext self pa Hbuild) as (s1 & Heq & _ & Hframe).
    rewrite Heq, report_run in Hrun. simpl in Hrun.
    destruct (payload_mapping self) as [d|] eqn:Hd; simpl in Hrun; [| discriminate].
    injection Hrun as <-. exists pa, s1, d. repeat split; auto.
    rewrite Hframe; [reflexivity |].
    rewrite !not_elem_of_cons. repeat split; try done. apply not_elem_of_nil.
  - rewrite (run_raises_early ext self e Hbuild) in Hrun. discriminate.
Qed.

(** C7. When the payload function returns a string and the encoding is
    JSON, [format_payload] hands the string back unchanged, it is what the
    request carries as data, and every outcome binds the key payload to
    it; an outcome is returned as soon as the request attributes build. *)
Theorem string_payload_passes_through s :
  get_payload self = VStr s →
  get_encoding self = Ok (VStr EncodingType.JSON) →
  format_payload ext self = Ok (VStr s)
  ∧ (∀ o, (run ext self).1 = Ok o → o !! "payload" = Some (VStr s))
  ∧ (∀ post_attributes,
       build_post_attributes ext self = Ok post_attributes →
       post_attributes !! "data" = Some (VStr s)
       ∧ ∃ o, (run ext self).1 = Ok o).
Proof.
  intros Hp Henc.
  assert (format_payload ext self = Ok (VStr s)) as Hformat.
  { unfold format_payload, jsonify_payload. rewrite Henc, Hp. reflexivity. }
  destruct (payload_mapping_string s Hp) as (d & Hd & Hlookup).
  split; [exact Hformat |]. split.
  - intros o Ho. destruct (run_returns o Ho) as (pa & s1 & d' & _ & _ & Hd' & -> & _).
    rewrite Hd in Hd'. injection Hd' as <-.
    by apply lookup_union_Some_l.
  - intros pa Hbuild. split.
    + unfold build_post_attributes in Hbuild. rewrite Henc, Hformat in Hbuild.
      destruct (get_timeout self) as [t|]; simpl in Hbuild; [| discriminate].
      destruct (get_custom_headers self) as [ch|]; simpl in Hbuild; [| discriminate].
      destruct (set_item _ "Content-Type" _) as [hd|]; simpl in Hbuild; [| discriminate].
      destruct (get_signing_secret self) as [k|]; simpl in Hbuild; [| discriminate].
      destruct (truthy k).
      * destruct (create_signature _ _ _); simpl in Hbuild; [| discriminate].
        destruct (set_item _ "x-hub-signature" _); simpl in Hbuild; [| discriminate].
        injection Hbuild as <-. by simplify_map_eq.
      * injection Hbuild as <-. by simplify_map_eq.
    + destruct (run_shape ext self pa Hbuild) as (s1 & -> & _).
      rewrite report_run, Hd. simpl. eauto.
Qed.


(** C10, amended. With a schedule of one entry no attempt is made:
    nothing is posted, nothing is slept, and the outcome is the payload's
    mapping laid over exactly three entries, success false, error null and
    the request attributes. The keys attempt, status_code and response are
    not in the metadata, so they are in the outcome only if the payload
    brings them; and success false and error null show in the outcome
    unless the payload carries those keys. *)
Theorem single_entry_schedule post_attributes d :
  length (attempts self) = 1%nat →
  build_post_attributes ext self = Ok post_attributes →
  payload_mapping self = Ok d →
  trace (run ext self).2 = []
  ∧ posts (trace (run ext self).2) = []
  ∧ sleeps (trace (run ext self).2) = []
  ∧ (run ext self).1
    = Ok (d ∪ <["post_attributes" :=
                  VDict (reported_attributes self post_attributes d)]>
                (<["error" := VNone]> {[ "success" := VBool false ]}))
  ∧ reports self (run ext self) "success" (VBool false)
  ∧ reports self (run ext self) "error" VNone
  ∧ ∀ key, key ∈ ["attempt"; "status_code"; "response"] →
           sending_metadata (run ext self).2 !! key = None
           ∧ ∀ o, (run ext self).1 = Ok o → o !! key = d !! key.
Proof.
  intros Hlen Hbuild Hd.
  assert (run ext self = report self post_attributes loop_start) as Hrun.
  { apply run_after_loop; [exact Hbuild |]. by rewrite Hlen. }
  assert (final_error loop_start = VNone) as Herr by reflexivity.
  rewrite Hrun, report_run, Hd, Herr. simpl.
  split; [done |]. split; [done |]. split; [done |].
  split; [by rewrite insert_empty |].
  split; [| split].
  - split; simpl; [by simplify_map_eq |].
    intros d' Hd'. assert (d' = d) as -> by congruence.
    eexists. split; [reflexivity |].
    intros Hk. rewrite lookup_union_r by done. by simplify_map_eq.
  - split; simpl; [by simplify_map_eq |].
    intros d' Hd'. assert (d' = d) as -> by congruence.
    eexists. split; [reflexivity |].
    intros Hk. rewrite lookup_union_r by done. by simplify_map_eq.
  - intros key Hkey.
    assert (key ≠ "post_attributes" ∧ key ≠ "error" ∧ key ≠ "success") as (? & ? & ?).
    { rewrite !elem_of_cons in Hkey.
      destruct Hkey as [-> | [-> | [-> | Hkey]]]; [done | done | done |].
      by apply elem_of_nil in Hkey. }
    split.
    + by rewrite !lookup_insert_ne.
    + intros o [= <-]. rewrite lookup_union.
      rewrite !lookup_insert_ne by done. rewrite lookup_empty.
      by destruct (d !! key).
Qed.

Lemma posts_failures_without_url post_attributes e m : ∀ a,
  get_url self = Raise e →
  posts (turns a m ≫= failure_events ext self post_attributes) = [].
Proof.
  intros a Hurl. revert a. induction m as [|m IH]; intros a; [reflexivity |].
  rewrite turns_cons. simpl. rewrite posts_app, IH, posts_failure_events.
  unfold request_events. by rewrite Hurl.
Qed.

(** A URL that does not resolve makes every attempt fail without a POST:
    the error raised by the lookup is caught with the transport errors. *)
Lemma missing_url_is_retried post_attributes e :
  get_url self = Raise e →
  build_post_attributes ext self = Ok post_attributes →
  (2 ≤ length (attempts self))%nat →
  posts (trace (run ext self).2) = []
  ∧ sleeps (trace (run ext self).2) = range (length (attempts self) - 2)
  ∧ sending_metadata (run ext self).2 !! "attempt"
    = Some (VInt (Z.of_nat (length (attempts self) - 1))).
Proof.
  intros Hurl Hbuild Hlen.
  assert (∀ j, request ext self post_attributes j = Raise e) as Hreq.
  { intros j. unfold request. by rewrite Hurl. }
  destruct (run_exhausted ext self post_attributes Hbuild Hlen)
    as (s1 & Hrun & Htrace & _ & Hatt & _).
  { intros j _. by rewrite Hreq. }
  rewrite Hrun, report_run. simpl. rewrite Htrace. split; [| split].
  - by apply posts_failures_without_url with e.
  - by apply sleeps_exhausted.
  - by rewrite !lookup_insert_ne.
Qed.

(** The other required setting is read before the loop: when the encoding
    does not resolve, the error leaves [_send] and nothing was done. *)
Lemma missing_encoding_raises e :
  get_encoding self = Raise e →
  run ext self = (Raise e, loop_start) ∧ trace (run ext self).2 = [].
Proof.
  intros Henc.
  assert (build_post_attributes ext self = Raise e) as Hbuild.
  { unfold build_post_attributes, get_timeout, get_custom_headers.
    destruct (_value_in_optional "timeout" (dkwargs self) (kwargs self)) as [t ->].
    destruct (_value_in_optional "custom_headers" (dkwargs self) (kwargs self))
      as [ch ->].
    simpl. by rewrite Henc. }
  by rewrite (run_raises_early ext self e Hbuild).
Qed.
End Outcome.

Lemma string_payload_passes_through_witness :
  format_payload (stub_externals fails_once) scenario_sender = Ok (VStr "raw")
  ∧ (∀ o, (run (stub_externals fails_once) scenario_sender).1 = Ok o →
          o !! "payload" = Some (VStr "raw"))
  ∧ (∀ post_attributes,
       build_post_attributes (stub_externals fails_once) scenario_sender
       = Ok post_attributes →
       post_attributes !! "data" = Some (VStr "raw")
       ∧ ∃ o, (run (stub_externals fails_once) scenario_sender).1 = Ok o).
Proof.
  exact (string_payload_passes_through (stub_externals fails_once) scenario_sender
           "raw" eq_refl eq_refl).
Defined.


Lemma single_entry_schedule_witness :
  let res := run (stub_externals fails_once) no_attempt_sender in
  trace res.2 = []
  ∧ reports no_attempt_sender res "success" (VBool false)
  ∧ reports no_attempt_sender res "error" VNone
  ∧ (.!! "attempt") <$> res.1 = Ok None
  ∧ (.!! "status_code") <$> res.1 = Ok None
  ∧ (.!! "response") <$> res.1 = Ok None.
Proof.
  assert (build_post_attributes (stub_externals fails_once) no_attempt_sender
          = Ok no_attempt_attributes) as Hbuild by (vm_compute; reflexivity).
  assert (payload_mapping no_attempt_sender
          = Ok (<["hash" := VStr "abc123"]> {[ "x" := VInt 1 ]})) as Hd
    by (vm_compute; reflexivity).
  destruct (single_entry_schedule (stub_externals fails_once) no_attempt_sender
              no_attempt_attributes _ eq_refl Hbuild Hd)
    as (Htrace & _ & _ & _ & Hsuccess & Herror & _).
  split; [exact Htrace |]. split; [exact Hsuccess |]. split; [exact Herror |].
  repeat split; vm_compute; reflexivity.
Defined.

(** C3 at a send whose settings hold everything but the URL, with schedule
    [0, 1, 0]: the lookup raises, but inside the [try] of each attempt, so
    [_send] returns a failed outcome after two attempts and one sleep
    instead of raising. Nothing is posted. *)
Theorem missing_url_is_swallowed :
  let res := run (stub_externals fails_once) sender_without_url in
  get_url sender_without_url
  = Raise (TypeError "Sender function needs a url argument")
  ∧ (.!! "success") <$> res.1 = Ok (Some (VBool false))
  ∧ (.!! "attempt") <$> res.1 = Ok (Some (VInt 2))
  ∧ (.!! "error") <$> res.1
    = Ok (Some (VStr "Sender function needs a url argument"))
  ∧ posts (trace res.2) = []
  ∧ sleeps (trace res.2) = [0].
Proof. repeat split; vm_compute; reflexivity. Qed.

(** The scenarios of the specification, run. *)
Example end_to_end_scenario :
  let res := run (stub_externals fails_once) scenario_sender in
  (.!! "success") <$> res.1 = Ok (Some (VBool true))
  ∧ (.!! "attempt") <$> res.1 = Ok (Some (VInt 2))
  ∧ (.!! "status_code") <$> res.1 = Ok (Some (VInt 200))
  ∧ (.!! "response") <$> res.1 = Ok (Some (VStr "OK"))
  ∧ (.!! "error") <$> res.1 = Ok (Some VNone)
  ∧ (.!! "hash") <$> res.1 = Ok (Some (VStr "abc123"))
  ∧ (.!! "payload") <$> res.1 = Ok (Some (VStr "raw")).
Proof. repeat split; vm_compute; reflexivity. Qed.

Example exhaustion_scenario :
  let res := run (stub_externals (refuses "Connection refused")) one_shot_sender in
  (.!! "success") <$> res.1 = Ok (Some (VBool false))
  ∧ (.!! "attempt") <$> res.1 = Ok (Some (VInt 1))
  ∧ (.!! "error") <$> res.1 = Ok (Some (VStr "Connection refused"))
  ∧ sleeps (trace res.2) = [].
Proof. repeat split; vm_compute; reflexivity. Qed.

(** C10 as stated fails when the payload carries the keys itself: with a
    schedule of one entry and a payload holding success and attempt, the
    outcome shows success true and has an attempt. *)
Lemma single_entry_claim_fails_on_colliding_payload :
  let res := run (stub_externals fails_once) no_attempt_colliding_sender in
  length (attempts no_attempt_colliding_sender) = 1%nat
  ∧ trace res.2 = []
  ∧ (.!! "success") <$> res.1 = Ok (Some (VBool true))
  ∧ (.!! "success") <$> res.1 ≠ Ok (Some (VBool false))
  ∧ (.!! "attempt") <$> res.1 = Ok (Some (VInt 3))
  ∧ (.!! "attempt") <$> res.1 ≠ Ok None.
Proof.
  split; [reflexivity |]. split; [vm_compute; reflexivity |].
  split; [vm_compute; reflexivity |]. split; [vm_compute; discriminate |].
  split; [vm_compute; reflexivity |]. vm_compute. discriminate.
Qed.

(** * Further properties *)

(** ** Settings and small helpers *)

(** X1. [_value_in] looks in the keyword arguments first and in the
    defaults second; it raises exactly when a required key is in neither,
    and then names the key; [value_in_opt] never raises and gives [None] for
    a key that is in neither. *)
Theorem _value_in_layers key required (dk kw : gmap string pyval) :
  (∀ v, kw !! key = Some v → _value_in key required dk kw = Ok v)
  ∧ (∀ v, kw !! key = None → dk !! key = Some v →
          _value_in key required dk kw = Ok v)
  ∧ (∀ e, _value_in key required dk kw = Raise e ↔
          required = true ∧ kw !! key = None ∧ dk !! key = None
          ∧ e = TypeError ("Sender function needs a " +:+ key +:+ " argument"))
  ∧ value_in_opt key dk kw = Ok (default VNone ((kw ∪ dk) !! key))
  ∧ value_in key dk kw = _value_in key true dk kw.
Proof.
  unfold value_in_opt, value_in. rewrite !_value_in_union, lookup_union.
  split; [| split; [| split; [intros e; split | split]]].
  - intros v ->. by destruct (dk !! key).
  - intros v -> ->. reflexivity.
  - destruct (kw !! key), (dk !! key), required; simpl; intros [=]; subst; auto.
  - intros (-> & -> & -> & ->). reflexivity.
  - by destruct (kw !! key), (dk !! key).
  - reflexivity.
Qed.

(** X2. [get_encoding] returns exactly when the value found for the key is
    one of the two MIME strings, and then returns that value; every other
    send has no encoding at all. *)
Theorem get_encoding_accepts_exactly self :
  ((∃ v, get_encoding self = Ok v) ↔
   found self "encoding" = Some (VStr EncodingType.JSON)
   ∨ found self "encoding" = Some (VStr EncodingType.FORMS))
  ∧ ∀ v, get_encoding self = Ok v → found self "encoding" = Some v.
Proof.
  unfold found. split.
  - split.
    + intros [v Hv]. apply get_encoding_ok in Hv as [Hf [-> | ->]]; auto.
    + intros [H | H]; eexists; apply get_encoding_ok; eauto.
  - intros v Hv. by apply get_encoding_ok in Hv as [Hf _].
Qed.

Lemma replace_dquote_chars s :
  dquote ∉ String.list_ascii_of_string (replace_dquote s).
Proof.
  induction s as [|c s IH]; simpl; [apply not_elem_of_nil |].
  apply not_elem_of_cons. split; [| exact IH].
  destruct (Ascii.eqb_spec c dquote) as [-> | Hne]; [discriminate | congruence].
Qed.

(** X3. What [replace] leaves of an exception text holds no double quote
    and has the length of the text; a text without double quotes is kept as
    it is, so replacing twice changes nothing more. *)
Theorem replace_dquote_safe s :
  (dquote ∉ String.list_ascii_of_string (replace_dquote s))
  ∧ String.length (replace_dquote s) = String.length s
  ∧ (dquote ∉ String.list_ascii_of_string s → replace_dquote s = s)
  ∧ replace_dquote (replace_dquote s) = replace_dquote s.
Proof.
  assert (∀ t, dquote ∉ String.list_ascii_of_string t → replace_dquote t = t) as Hid.
  { induction t as [|c t IH]; simpl; [done |].
    intros Hc. apply not_elem_of_cons in Hc as [Hc Ht].
    destruct (Ascii.eqb_spec c dquote); [congruence |]. by rewrite IH. }
  split; [apply replace_dquote_chars |]. split; [| split].
  - induction s as [|c s IH]; simpl; [done | by rewrite IH].
  - apply Hid.
  - apply Hid, replace_dquote_chars.
Qed.

(** ** The request attributes *)

Section Attributes.
Context (ext : externals) (self : Senderable).

Lemma entries_falsy ch : truthy ch = false → entries ch = ∅.
Proof.
  destruct ch as [| | | |d]; simpl; try done.
  intros H. apply negb_false_iff, Nat.eqb_eq in H. by apply map_size_empty_iff.
Qed.

Lemma format_payload_inv data :
  format_payload ext self = Ok data →
  ∃ enc, get_encoding self = Ok enc
         ∧ data = if py_eq_str enc EncodingType.JSON
                  then jsonify_payload ext self else get_payload self.
Proof.
  unfold format_payload. destruct (get_encoding self) as [enc|]; simpl; [| done].
  destruct (py_eq_str enc EncodingType.JSON) eqn:Hj; intros [= <-];
    (eexists; split; [reflexivity | by rewrite Hj]).
Qed.

(** The build, with the dictionary updates carried out. *)
Lemma build_post_attributes_eq :
  build_post_attributes ext self =
  (t ← get_timeout self;
   ch ← get_custom_headers self;
   enc ← get_encoding self;
   headers ← set_item (if truthy ch then ch else VDict ∅) "Content-Type" enc;
   data ← format_payload ext self;
   secret ← get_signing_secret self;
   if truthy secret
   then
     sig ← create_signature ext data secret;
     headers' ← set_item headers "x-hub-signature" (VStr sig);
     Ok (<["headers" := headers']> (<["data" := data]> {[ "timeout" := t ]}))
   else
     Ok (<["headers" := headers]> (<["data" := data]> {[ "timeout" := t ]}))).
Proof.
  unfold build_post_attributes.
  destruct (get_timeout self) as [t|]; simpl; [| done].
  destruct (get_custom_headers self) as [ch|]; simpl; [| done].
  destruct (get_encoding self) as [enc|]; simpl; [| done].
  assert (dict_get
            (if negb (truthy (dict_get
                  (if truthy ch
                   then <["headers" := ch]> ({[ "timeout" := t ]} : gmap string pyval)
                   else {[ "timeout" := t ]}) "headers"))
             then <["headers" := VDict ∅]>
                    (if truthy ch
                     then <["headers" := ch]> ({[ "timeout" := t ]} : gmap string pyval)
                     else {[ "timeout" := t ]})
             else if truthy ch
                  then <["headers" := ch]> ({[ "timeout" := t ]} : gmap string pyval)
                  else {[ "timeout" := t ]}) "headers"
          = if truthy ch then ch else VDict ∅) as ->.
  { unfold dict_get. destruct (truthy ch) eqn:Hch.
    - rewrite lookup_insert_eq. simpl. rewrite Hch. simpl.
      by rewrite lookup_insert_eq.
    - rewrite lookup_singleton_ne by done. simpl.
      by rewrite lookup_insert_eq. }
  destruct (set_item _ "Content-Type" enc) as [headers|]; simpl; [| done].
  destruct (format_payload ext self) as [data|]; simpl; [| done].
  destruct (get_signing_secret self) as [secret|]; simpl; [| done].
  assert ((if negb (truthy (dict_get
                  (if truthy ch
                   then <["headers" := ch]> ({[ "timeout" := t ]} : gmap string pyval)
                   else {[ "timeout" := t ]}) "headers"))
           then <["headers" := VDict ∅]>
                  (if truthy ch
                   then <["headers" := ch]> ({[ "timeout" := t ]} : gmap string pyval)
                   else {[ "timeout" := t ]})
           else if truthy ch
                then <["headers" := ch]> ({[ "timeout" := t ]} : gmap string pyval)
                else {[ "timeout" := t ]})
          = <["headers" := if truthy ch then ch else VDict ∅]> {[ "timeout" := t ]})
    as ->.
  { unfold dict_get. destruct (truthy ch) eqn:Hch.
    - rewrite lookup_insert_eq. simpl. by rewrite Hch.
    - by rewrite lookup_singleton_ne by done. }
  assert (∀ (h h0 : pyval) (m : gmap string pyval),
            <["headers" := h]> (<["data" := data]> (<["headers" := h0]> m))
            = <["headers" := h]> (<["data" := data]> m)) as Hover.
  { intros h h0 m. apply map_eq. intros k.
    destruct (decide (k = "headers")) as [-> | Hk]; [by rewrite !lookup_insert_eq |].
    rewrite !(lookup_insert_ne _ "headers") by done.
    destruct (decide (k = "data")) as [-> | Hk']; [by rewrite !lookup_insert_eq |].
    rewrite !(lookup_insert_ne _ "data") by done.
    by rewrite lookup_insert_ne. }
  assert (∀ (h : pyval) (m : gmap string pyval),
            <["data" := data]> (<["headers" := h]> m)
            = <["headers" := h]> (<["data" := data]> m)) as Hswap.
  { intros h m. by apply insert_insert_ne. }
  destruct (truthy secret).
  - unfold dict_get. rewrite !lookup_insert_eq. simpl.
    rewrite lookup_insert_ne, lookup_insert_eq by done. simpl.
    destruct (create_signature ext data secret) as [sig|]; simpl; [| done].
    destruct (set_item headers "x-hub-signature" (VStr sig)) as [h'|]; simpl; [| done].
    by rewrite !Hover.
  - by rewrite Hswap, Hover.
Qed.

Lemma set_content_type ch enc headers :
  set_item (if truthy ch then ch else VDict ∅) "Content-Type" enc = Ok headers →
  headers = VDict (<["Content-Type" := enc]> (entries ch))
  ∧ (truthy ch = false ∨ is_dict ch = true).
Proof.
  destruct (truthy ch) eqn:Hch.
  - destruct ch as [| | | |d]; simpl; intros [= <-]; auto.
  - simpl. intros [= <-]. rewrite (entries_falsy ch Hch). auto.
Qed.

(** What a successful build was made of. *)
Lemma build_post_attributes_inv pa :
  build_post_attributes ext self = Ok pa →
  ∃ t ch enc data secret headers,
    get_timeout self = Ok t
    ∧ get_custom_headers self = Ok ch
    ∧ get_encoding self = Ok enc
    ∧ format_payload ext self = Ok data
    ∧ get_signing_secret self = Ok secret
    ∧ (truthy ch = false ∨ is_dict ch = true)
    ∧ pa = <["headers" := VDict headers]> (<["data" := data]> {[ "timeout" := t ]})
    ∧ (if truthy secret
       then ∃ sig, create_signature ext data secret = Ok sig
                   ∧ headers = <["x-hub-signature" := VStr sig]>
                                 (<["Content-Type" := enc]> (entries ch))
       else headers = <["Content-Type" := enc]> (entries ch)).
Proof.
  rewrite build_post_attributes_eq.
  destruct (get_timeout self) as [t|]; simpl; [| done].
  destruct (get_custom_headers self) as [ch|]; simpl; [| done].
  destruct (get_encoding self) as [enc|]; simpl; [| done].
  destruct (set_item _ "Content-Type" enc) as [headers|] eqn:Hset; simpl; [| done].
  apply set_content_type in Hset as [-> Hch].
  destruct (format_payload ext self) as [data|]; simpl; [| done].
  destruct (get_signing_secret self) as [secret|]; simpl; [| done].
  destruct (truthy secret) eqn:Hsecret.
  - destruct (create_signature ext data secret) as [sig|] eqn:Hsig; simpl; [| done].
    intros [= <-]. exists t, ch, enc, data, secret. eexists.
    rewrite Hsecret. repeat split; eauto.
  - intros [= <-]. exists t, ch, enc, data, secret. eexists.
    rewrite Hsecret. repeat split; eauto.
Qed.

(** X4. Every request carries exactly three attributes, timeout, headers
    and data, and its timeout is never falsy: it is the configured value
    or 5. *)
Theorem request_has_three_attributes pa :
  build_post_attributes ext self = Ok pa →
  dom pa = {[ "timeout"; "headers"; "data" ]}
  ∧ ∃ t, pa !! "timeout" = Some t ∧ truthy t = true
         ∧ (found self "timeout" = Some t ∨ t = VInt 5).
Proof.
  intros Hbuild.
  destruct (build_post_attributes_inv pa Hbuild)
    as (t & ch & enc & data & secret & headers & Ht & _ & _ & _ & _ & _ & -> & _).
  split.
  - rewrite !dom_insert_L, dom_singleton_L. set_solver.
  - exists t. split; [by simplify_map_eq |].
    unfold get_timeout in Ht. rewrite _value_in_union in Ht. unfold found.
    destruct ((kwargs self ∪ dkwargs self) !! "timeout") as [v|]; simpl in Ht.
    + destruct (truthy v) eqn:Hv; injection Ht as <-; auto.
    + injection Ht as <-. auto.
Qed.

(** X5. The Content-Type header of every request is the resolved
    encoding, also when the custom headers set one of their own; every
    other custom header but x-hub-signature is passed on untouched. *)
Theorem content_type_is_forced pa enc ch :
  build_post_attributes ext self = Ok pa →
  get_encoding self = Ok enc →
  get_custom_headers self = Ok ch →
  ∃ headers,
    pa !! "headers" = Some (VDict headers)
    ∧ headers !! "Content-Type" = Some enc
    ∧ ∀ k, k ≠ "Content-Type" → k ≠ "x-hub-signature" →
           headers !! k = entries ch !! k.
Proof.
  intros Hbuild Henc Hch.
  destruct (build_post_attributes_inv pa Hbuild)
    as (t & ch' & enc' & data & secret & headers & _ & Hch' & Henc' & _ & _ & _ & -> & Hh).
  assert (ch' = ch) as -> by congruence. assert (enc' = enc) as -> by congruence.
  exists headers. split; [by simplify_map_eq |].
  destruct (truthy secret).
  - destruct Hh as (sig & _ & ->). split; [by simplify_map_eq |].
    intros k ? ?. by rewrite !lookup_insert_ne.
  - subst headers. split; [by simplify_map_eq |].
    intros k ? ?. by rewrite !lookup_insert_ne.
Qed.

(** X6. The request is signed exactly when the signing secret is truthy:
    then x-hub-signature is [create_signature] of the very data the
    request carries; otherwise no signature is computed and the header is
    whatever the custom headers hold under that name, if anything. *)
Theorem signature_header_follows_secret pa secret ch :
  build_post_attributes ext self = Ok pa →
  get_signing_secret self = Ok secret →
  get_custom_headers self = Ok ch →
  ∃ headers data,
    pa !! "headers" = Some (VDict headers)
    ∧ pa !! "data" = Some data
    ∧ if truthy secret
      then ∃ sig, create_signature ext data secret = Ok sig
                  ∧ headers !! "x-hub-signature" = Some (VStr sig)
      else headers !! "x-hub-signature" = entries ch !! "x-hub-signature".
Proof.
  intros Hbuild Hsecret Hch.
  destruct (build_post_attributes_inv pa Hbuild)
    as (t & ch' & enc & data & secret' & headers & _ & Hch' & _ & _ & Hs' & _ & -> & Hh).
  assert (ch' = ch) as -> by congruence.
  assert (secret' = secret) as -> by congruence.
  exists headers, data. split; [by simplify_map_eq |]. split; [by simplify_map_eq |].
  destruct (truthy secret).
  - destruct Hh as (sig & Hsig & ->). exists sig. split; [done | by simplify_map_eq].
  - subst headers. by rewrite lookup_insert_ne.
Qed.

End Attributes.

Lemma signed_forms_attributes :
  ∃ pa, build_post_attributes (stub_externals fails_once) signed_forms_sender = Ok pa.
Proof. vm_compute. eexists. reflexivity. Qed.

Lemma request_has_three_attributes_witness :
  ∃ pa, build_post_attributes (stub_externals fails_once) sender_with_zero_timeout_url
        = Ok pa
        ∧ dom pa = {[ "timeout"; "headers"; "data" ]}
        ∧ ∃ t, pa !! "timeout" = Some t ∧ truthy t = true.
Proof.
  assert (∃ pa, build_post_attributes (stub_externals fails_once)
                  sender_with_zero_timeout_url = Ok pa) as [pa Hpa].
  { vm_compute. eexists. reflexivity. }
  exists pa. split; [exact Hpa |].
  destruct (request_has_three_attributes (stub_externals fails_once)
              sender_with_zero_timeout_url pa Hpa) as (Hdom & t & Ht & Htruthy & _).
  split; [exact Hdom |]. exists t. split; [exact Ht | exact Htruthy].
Defined.

Lemma content_type_is_forced_witness :
  ∃ pa headers,
    build_post_attributes (stub_externals fails_once) signed_forms_sender = Ok pa
    ∧ pa !! "headers" = Some (VDict headers)
    ∧ headers !! "Content-Type" = Some (VStr EncodingType.FORMS)
    ∧ headers !! "X-Token" = Some (VStr "t").
Proof.
  assert (∃ pa, build_post_attributes (stub_externals fails_once)
                  signed_forms_sender = Ok pa) as [pa Hpa].
  { vm_compute. eexists. reflexivity. }
  destruct (content_type_is_forced (stub_externals fails_once) signed_forms_sender pa
              (VStr EncodingType.FORMS)
              (VDict {[ "Content-Type" := VStr "text/plain"; "X-Token" := VStr "t" ]})
              Hpa eq_refl eq_refl) as (headers & Hh & Hct & Hrest).
  exists pa, headers. split; [exact Hpa |]. split; [exact Hh |]. split; [exact Hct |].
  rewrite (Hrest "X-Token"); [reflexivity | discriminate | discriminate].
Defined.

Lemma signature_header_follows_secret_witness :
  ∃ pa headers sig,
    build_post_attributes (stub_externals fails_once) signed_forms_sender = Ok pa
    ∧ pa !! "headers" = Some (VDict headers)
    ∧ create_signature (stub_externals fails_once) (VDict {[ "x" := VInt 1 ]})
                       (VStr "key") = Ok sig
    ∧ headers !! "x-hub-signature" = Some (VStr sig).
Proof.
  assert (∃ pa, build_post_attributes (stub_externals fails_once)
                  signed_forms_sender = Ok pa) as [pa Hpa].
  { vm_compute. eexists. reflexivity. }
  destruct (signature_header_follows_secret (stub_externals fails_once)
              signed_forms_sender pa (VStr "key")
              (VDict {[ "Content-Type" := VStr "text/plain"; "X-Token" := VStr "t" ]})
              Hpa eq_refl eq_refl) as (headers & data & Hh & Hdata & sig & Hsig & Hx).
  assert (data = VDict {[ "x" := VInt 1 ]}) as ->.
  { destruct (build_post_attributes_inv _ _ _ Hpa)
      as (? & ? & ? & data' & ? & ? & _ & _ & _ & Hd & _ & _ & -> & _).
    rewrite lookup_insert_ne, lookup_insert_eq in Hdata by done.
    injection Hdata as <-. vm_compute in Hd. by injection Hd as <-. }
  exists pa, headers, sig. auto.
Defined.


(** ** More on the signature *)

Lemma encode_utf8_app a b : encode_utf8 (a +:+ b) = encode_utf8 a ++ encode_utf8 b.
Proof.
  unfold encode_utf8. rewrite <- map_app. f_equal.
  induction a as [|c a IH]; simpl; [done | by rewrite IH].
Qed.

Section MoreSignature.
Context (ext : externals).

(** X9. Whatever is signed, a signature that is returned is the prefix
    sha256= followed by exactly 64 lowercase hexadecimal digits. *)
Theorem signature_is_prefixed_hex payload secret sig :
  create_signature ext payload secret = Ok sig →
  ∃ h, sig = "sha256=" +:+ h
       ∧ String.length h = 64%nat
       ∧ Forall (fun c => c ∈ String.list_ascii_of_string "0123456789abcdef")
                (String.list_ascii_of_string h).
Proof.
  intros Hsig. destruct (create_signature_shape ext payload secret sig Hsig)
    as (r & -> & Hlen).
  exists (SHA256.hex r). split; [done |]. split; [done | apply hex_lowercase].
Qed.


(** X11. The digest is taken over the secret followed by the body with
    nothing in between, so moving text from the front of the body to the
    end of the secret gives the same signature. *)
Theorem signature_ignores_the_split secret moved body :
  create_signature ext (VStr (moved +:+ body)) (VStr secret)
  = create_signature ext (VStr body) (VStr (secret +:+ moved)).
Proof.
  rewrite !create_signature_text, !encode_utf8_app. by rewrite app_assoc.
Qed.

(** A mapping is signed through its form encoding. *)
Lemma create_signature_of_mapping d secret :
  create_signature ext (VDict d) secret
  = create_signature ext (VStr (urlencode ext d)) secret.
Proof. reflexivity. Qed.
End MoreSignature.

Lemma signature_is_prefixed_hex_witness :
  ∃ h, "sha256=37bd34e4b292ef9df8bfe70e3f50526139249490c3c2594cf20175ba7665e01d"
       = "sha256=" +:+ h
       ∧ String.length h = 64%nat
       ∧ Forall (fun c => c ∈ String.list_ascii_of_string "0123456789abcdef")
                (String.list_ascii_of_string h).
Proof.
  apply (signature_is_prefixed_hex (stub_externals fails_once)
           (VStr json_body) (VStr "secret")).
  vm_compute. reflexivity.
Defined.


(** ** Every send, whatever the receiver does *)

Section EverySend.
Context (ext : externals) (self : Senderable).

(** Either some attempt is the first to be delivered, or none is. *)
Lemma first_delivered post_attributes n :
  (∃ k, (k < n)%nat
        ∧ delivered (request ext self post_attributes k) = true
        ∧ ∀ j, (j < k)%nat → delivered (request ext self post_attributes j) = false)
  ∨ (∀ j, (j < n)%nat → delivered (request ext self post_attributes j) = false).
Proof.
  induction n as [|n [(k & Hk & Hd & Hmin) | Hnone]].
  - right. intros j Hj. lia.
  - left. exists k. split; [lia | done].
  - destruct (delivered (request ext self post_attributes n)) eqn:Hn.
    + left. exists n. split; [lia | done].
    + right. intros j Hj. destruct (decide (j = n)) as [-> | Hne]; [done |].
      apply Hnone. lia.
Qed.

(** The two ways a send that got past its preparation can go. *)
Lemma run_cases post_attributes :
  build_post_attributes ext self = Ok post_attributes →
  (∃ k r content s1,
     (k < length (attempts self) - 1)%nat
     ∧ (∀ j, (j < k)%nat → delivered (request ext self post_attributes j) = false)
     ∧ request ext self post_attributes k = Ok r
     ∧ content_utf8 r = Ok content
     ∧ in_2xx (status_code r) = true
     ∧ run ext self = report self post_attributes s1
     ∧ trace s1 = (turns 0 k ≫= failure_events ext self post_attributes)
                  ++ delivered_events self post_attributes (k, Z.of_nat k)
     ∧ sending_metadata s1 !! "success" = Some (VBool true)
     ∧ sending_metadata s1 !! "attempt" = Some (VInt (Z.of_nat (S k))))
  ∨ (∃ s1,
       (∀ j, (j < length (attempts self) - 1)%nat →
             delivered (request ext self post_attributes j) = false)
       ∧ run ext self = report self post_attributes s1
       ∧ trace s1 = (turns 0 (length (attempts self) - 1)
                       ≫= failure_events ext self post_attributes)
       ∧ sending_metadata s1 !! "success" = Some (VBool false)
       ∧ ((length (attempts self) ≤ 1)%nat ∧ s1 = loop_start
          ∨ (2 ≤ length (attempts self))%nat
            ∧ sending_metadata s1 !! "attempt"
              = Some (VInt (Z.of_nat (length (attempts self) - 1)))
            ∧ error s1 = VStr (failure_message
                                 (request ext self post_attributes
                                          (length (attempts self) - 2))))).
Proof.
  intros Hbuild.
  destruct (first_delivered post_attributes (length (attempts self) - 1))
    as [(k & Hk & Hd & Hmin) | Hnone].
  - left. unfold delivered in Hd.
    destruct (request ext self post_attributes k) as [r|] eqn:Hreq; [| done].
    destruct (content_utf8 r) as [content|] eqn:Hcontent; [| done].
    destruct (run_delivered ext self post_attributes (S k) r content Hbuild)
      as (s1 & Hrun & Htrace & Hsucc & Hatt & _); auto.
    { lia. }
    { intros j Hj. apply Hmin. lia. }
    { by replace (S k - 1)%nat with k by lia. }
    replace (S k - 1)%nat with k in Htrace by lia.
    exists k, r, content, s1. repeat split; auto.
  - right.
    destruct (loop_failures ext self post_attributes (length (attempts self) - 1) 0
                loop_start [])
      as (s1 & Hrun & Htrace & _ & Hsucc & Hsame & Hlast);
      [done | intros j Hj; apply Hnone; lia |].
    rewrite app_nil_r in Hrun. simpl in Hrun, Htrace, Hlast.
    exists s1. split; [done |]. split; [by apply run_after_loop |].
    split; [done |]. split; [by rewrite Hsucc |].
    destruct (decide (length (attempts self) ≤ 1)%nat) as [Hle | Hgt].
    + left. split; [done |]. apply Hsame. lia.
    + right. destruct Hlast as (_ & Herr & Hatt); [lia |].
      split; [lia |]. split; [done |]. rewrite Herr. do 3 f_equal. lia.
Qed.

Lemma final_metadata post_attributes s1 :
  sending_metadata (report self post_attributes s1).2
  = <["post_attributes" := VDict post_attributes]>
      (<["error" := final_error s1]> (sending_metadata s1)).
Proof. by rewrite report_run. Qed.

(** X12. A send succeeds exactly when one of the attempts its schedule
    allows is delivered, and then it stops at the first such attempt: the
    attempt number recorded is that attempt's. *)
Theorem success_iff_some_attempt_delivered post_attributes :
  build_post_attributes ext self = Ok post_attributes →
  ∃ b, sending_metadata (run ext self).2 !! "success" = Some (VBool b)
       ∧ (b = true ↔
          ∃ j, (j < length (attempts self) - 1)%nat
               ∧ delivered (request ext self post_attributes j) = true)
       ∧ ∀ k, (k < length (attempts self) - 1)%nat →
              delivered (request ext self post_attributes k) = true →
              (∀ j, (j < k)%nat →
                    delivered (request ext self post_attributes j) = false) →
              sending_metadata (run ext self).2 !! "attempt"
              = Some (VInt (Z.of_nat k + 1)).
Proof.
  intros Hbuild.
  destruct (run_cases post_attributes Hbuild)
    as [(k & r & content & s1 & Hk & Hmin & Hreq & Hcontent & Hcode & Hrun & _
         & Hsucc & Hatt)
       | (s1 & Hnone & Hrun & _ & Hsucc & _)].
  - exists true. rewrite Hrun, final_metadata.
    split; [by rewrite !lookup_insert_ne |]. split.
    + split; [| done]. intros _. exists k. split; [done |].
      unfold delivered. by rewrite Hreq, Hcontent.
    + intros k' Hk' Hd' Hmin'.
      assert (k' = k) as ->.
      { destruct (Nat.lt_trichotomy k' k) as [Hlt | [-> | Hgt]]; [| done |].
        - rewrite (Hmin k' Hlt) in Hd'. discriminate.
        - assert (delivered (request ext self post_attributes k) = true) as Hd.
          { unfold delivered. by rewrite Hreq, Hcontent. }
          rewrite (Hmin' k Hgt) in Hd. discriminate. }
      rewrite !lookup_insert_ne, Hatt by done. do 2 f_equal. lia.
  - exists false. rewrite Hrun, final_metadata.
    split; [by rewrite !lookup_insert_ne |]. split.
    + split; [done |]. intros (j & Hj & Hd). rewrite (Hnone j Hj) in Hd. discriminate.
    + intros k Hk Hd. rewrite (Hnone k Hk) in Hd. discriminate.
Qed.

(** X13. The waits of a send are 0, 1, ..., m-1 for some m no larger
    than N-2, N being the length of the schedule: the wait grows by one
    with each failed attempt and nothing is slept after the last attempt
    or after a delivered one. *)
Theorem sleeps_count_up :
  ∃ m, (m ≤ length (attempts self) - 2)%nat
       ∧ sleeps (trace (run ext self).2) = range m
       ∧ ∀ post_attributes,
           build_post_attributes ext self = Ok post_attributes →
           (∀ j, (j < m)%nat →
                 delivered (request ext self post_attributes j) = false)
           ∧ ((m < length (attempts self) - 2)%nat →
              delivered (request ext self post_attributes m) = true).
Proof.
  destruct (build_post_attributes ext self) as [pa|e] eqn:Hbuild.
  - destruct (run_cases pa Hbuild)
      as [(k & r & content & s1 & Hk & Hmin & Hreq & Hcontent & Hcode & Hrun
           & Htrace & _)
         | (s1 & Hnone & Hrun & Htrace & _ & Hn)].
    + exists k. split; [lia |]. split.
      * rewrite Hrun, trace_after_report, Htrace, sleeps_app,
          sleeps_delivered_events, app_nil_r.
        apply sleeps_failures. lia.
      * intros pa' [= <-]. split; [done |]. intros _.
        unfold delivered. by rewrite Hreq, Hcontent.
    + exists (length (attempts self) - 2)%nat. split; [lia |]. split.
      * rewrite Hrun, trace_after_report, Htrace.
        destruct Hn as [[Hle _] | [Hge _]].
        -- replace (length (attempts self) - 1)%nat with 0%nat by lia.
           by replace (length (attempts self) - 2)%nat with 0%nat by lia.
        -- by apply sleeps_exhausted.
      * intros pa' [= <-]. split; [| lia]. intros j Hj. apply Hnone. lia.
  - exists 0%nat. split; [lia |]. rewrite (run_raises_early ext self e Hbuild).
    split; [done |]. intros pa' [=].
Qed.

Lemma posts_failures_replicate post_attributes url m : ∀ a,
  get_url self = Ok url →
  posts (turns a m ≫= failure_events ext self post_attributes)
  = replicate m (EPost url post_attributes).
Proof.
  intros a Hurl. revert a. induction m as [|m IH]; intros a; [reflexivity |].
  rewrite turns_cons. simpl. rewrite posts_app, IH, posts_failure_events.
  destruct (posts_request_events self post_attributes) as [_ Hp].
  by rewrite (Hp url Hurl).
Qed.

Lemma run_posts post_attributes :
  build_post_attributes ext self = Ok post_attributes →
  (∀ url, get_url self = Ok url →
     ∃ m, posts (trace (run ext self).2) = replicate m (EPost url post_attributes)
          ∧ (m ≤ length (attempts self) - 1)%nat
          ∧ ((2 ≤ length (attempts self))%nat →
             (1 ≤ m)%nat
             ∧ sending_metadata (run ext self).2 !! "attempt"
               = Some (VInt (Z.of_nat m))))
  ∧ (∀ e, get_url self = Raise e →
       posts (trace (run ext self).2) = []
       ∧ ((2 ≤ length (attempts self))%nat →
          sending_metadata (run ext self).2 !! "attempt"
          = Some (VInt (Z.of_nat (length (attempts self) - 1))))).
Proof.
  intros Hbuild.
  destruct (run_cases post_attributes Hbuild)
    as [(k & r & content & s1 & Hk & _ & Hreq & _ & _ & Hrun & Htrace & _ & Hatt)
       | (s1 & _ & Hrun & Htrace & _ & Hn)];
    rewrite Hrun, trace_after_report, final_metadata, Htrace.
  - split.
    + intros url Hurl. exists (S k).
      rewrite posts_app, (posts_failures_replicate _ url _ _ Hurl).
      unfold delivered_events. rewrite posts_app.
      destruct (posts_request_events self post_attributes) as [_ Hp].
      rewrite (Hp url Hurl). simpl.
      split.
      * exact (eq_sym (replicate_S_end k (EPost url post_attributes))).
      * split; [lia |]. intros _. split; [lia |]. by rewrite !lookup_insert_ne.
    + intros e He. unfold request in Hreq. rewrite He in Hreq. discriminate.
  - split.
    + intros url Hurl. exists (length (attempts self) - 1)%nat.
      split; [by apply posts_failures_replicate |]. split; [lia |].
      intros Hlen. split; [lia |].
      destruct Hn as [[Hle _] | (_ & Hatt & _)]; [lia |].
      by rewrite !lookup_insert_ne.
    + intros e He. split; [by apply posts_failures_without_url with e |].
      intros Hlen. destruct Hn as [[Hle _] | (_ & Hatt & _)]; [lia |].
      by rewrite !lookup_insert_ne.
Qed.

(** X14. All the POSTs of a send are the same request, the URL and the
    attributes built before the loop. When the URL resolves and the
    schedule allows an attempt, the attempt number recorded is the number
    of POSTs made. A send whose URL does not resolve posts nothing, and
    yet records N-1 attempts for a schedule of length N >= 2. *)
Theorem every_post_is_the_same_request post_attributes :
  build_post_attributes ext self = Ok post_attributes →
  (∀ url, get_url self = Ok url →
     ∃ m, posts (trace (run ext self).2) = replicate m (EPost url post_attributes)
          ∧ (m ≤ length (attempts self) - 1)%nat
          ∧ ((2 ≤ length (attempts self))%nat →
             (1 ≤ m)%nat
             ∧ sending_metadata (run ext self).2 !! "attempt"
               = Some (VInt (Z.of_nat m))))
  ∧ (∀ e, get_url self = Raise e →
       posts (trace (run ext self).2) = []
       ∧ ((2 ≤ length (attempts self))%nat →
          sending_metadata (run ext self).2 !! "attempt"
          = Some (VInt (Z.of_nat (length (attempts self) - 1))))).
Proof. apply run_posts. Qed.

Lemma logged_app lvl (t1 t2 : list event) :
  logged lvl (t1 ++ t2) = logged lvl t1 ++ logged lvl t2.
Proof. apply bind_app. Qed.

Lemma logged_request_events lvl post_attributes :
  logged lvl (request_events self post_attributes) = [].
Proof. unfold request_events. by destruct (get_url self), lvl. Qed.

Lemma logged_error_failures post_attributes m : ∀ a,
  (a + m ≤ length (attempts self) - 2)%nat →
  logged ERROR (turns a m ≫= failure_events ext self post_attributes) = [].
Proof.
  induction m as [|m IH]; intros a Hle; [reflexivity |].
  rewrite turns_cons. simpl. rewrite logged_app, IH by lia.
  unfold failure_events, after_failure.
  rewrite logged_app, logged_request_events. simpl.
  destruct (Z.eqb_spec (Z.of_nat a + 1) (Z.of_nat (length (attempts self)) - 1));
    [lia | reflexivity].
Qed.

(** X15. The error-level message is logged once, as the last event, by a
    send that used up its schedule without a delivery, and by no other
    send. *)
Theorem error_is_logged_on_exhaustion post_attributes :
  build_post_attributes ext self = Ok post_attributes →
  ∃ b, sending_metadata (run ext self).2 !! "success" = Some (VBool b)
       ∧ logged ERROR (trace (run ext self).2)
         = (if b || (length (attempts self) <? 2)%nat then []
            else ["Failed to send webhook " +:+ format_hash (hash_value self)
                  +:+ ". Body: " +:+ py_str ext (get_payload self)])
       ∧ (b = false → (2 ≤ length (attempts self))%nat →
          ∃ t, trace (run ext self).2
               = t ++ [ENotify ERROR
                         ("Failed to send webhook " +:+ format_hash (hash_value self)
                          +:+ ". Body: " +:+ py_str ext (get_payload self))]).
Proof.
  intros Hbuild.
  destruct (run_cases post_attributes Hbuild)
    as [(k & r & content & s1 & Hk & _ & _ & _ & _ & Hrun & Htrace & Hsucc & _)
       | (s1 & _ & Hrun & Htrace & Hsucc & Hn)];
    rewrite Hrun, trace_after_report, final_metadata, Htrace.
  - exists true. split; [by rewrite !lookup_insert_ne |]. split; [| done].
    simpl. rewrite logged_app, logged_error_failures by lia.
    unfold delivered_events. by rewrite logged_app, logged_request_events.
  - exists false. split; [by rewrite !lookup_insert_ne |].
    destruct Hn as [[Hle _] | [Hge _]].
    + replace (length (attempts self) - 1)%nat with 0%nat by lia.
      destruct (Nat.ltb_spec (length (attempts self)) 2); [| lia].
      split; [done |]. intros _ ?. lia.
    + destruct (Nat.ltb_spec (length (attempts self)) 2); [lia |]. simpl.
      replace (length (attempts self) - 1)%nat
        with (length (attempts self) - 2 + 1)%nat by lia.
      rewrite turns_app, bind_app. simpl. rewrite app_nil_r.
      unfold failure_events at 2 4. unfold after_failure. simpl.
      destruct (Z.eqb_spec (Z.of_nat (length (attempts self) - 2) + 1)
                           (Z.of_nat (length (attempts self)) - 1)); [| lia].
      split.
      * rewrite !logged_app, logged_error_failures, logged_request_events by lia.
        reflexivity.
      * intros _ _. eexists. rewrite !app_assoc.
        change [ENotify INFO ?a; ENotify DEBUG ?b; ENotify ERROR ?c]
          with ([ENotify INFO a; ENotify DEBUG b] ++ [ENotify ERROR c]).
        rewrite !app_assoc. reflexivity.
Qed.
End EverySend.

(** ** More on the outcome *)

Section MoreOutcome.
Context (ext : externals) (self : Senderable).

(** X16. What a send stores under error is null or a text that is not
    empty; it is null whenever the send succeeded, and a text only beside
    success false. *)
Theorem error_is_null_or_text post_attributes :
  build_post_attributes ext self = Ok post_attributes →
  (sending_metadata (run ext self).2 !! "success" = Some (VBool true) →
   sending_metadata (run ext self).2 !! "error" = Some VNone)
  ∧ (sending_metadata (run ext self).2 !! "error" = Some VNone
     ∨ ∃ msg, msg ≠ EmptyString
              ∧ sending_metadata (run ext self).2 !! "error" = Some (VStr msg)
              ∧ sending_metadata (run ext self).2 !! "success" = Some (VBool false)).
Proof.
  intros Hbuild.
  destruct (run_cases ext self post_attributes Hbuild)
    as [(k & r & content & s1 & _ & _ & _ & _ & _ & Hrun & _ & Hsucc & _)
       | (s1 & _ & Hrun & _ & Hsucc & Hn)];
    rewrite Hrun, final_metadata.
  - rewrite (final_error_delivered s1 Hsucc).
    split; [intros _ |]; [| left]; by simplify_map_eq.
  - split.
    + rewrite lookup_insert_ne, lookup_insert_ne, Hsucc by done. discriminate.
    + destruct Hn as [[_ ->] | (_ & _ & Herr)].
      * left. by simplify_map_eq.
      * rewrite (final_error_failed s1 _ Hsucc Herr).
        case_bool_decide as Hmsg.
        -- left. by simplify_map_eq.
        -- right. eexists. split; [exact Hmsg |]. split; by simplify_map_eq.
Qed.

(** X17. Every outcome that is returned has the keys success, error and
    post_attributes, and attempt too as soon as the schedule has two
    entries. *)
Theorem outcome_has_its_keys o :
  (run ext self).1 = Ok o →
  is_Some (o !! "success") ∧ is_Some (o !! "error")
  ∧ is_Some (o !! "post_attributes")
  ∧ ((2 ≤ length (attempts self))%nat → is_Some (o !! "attempt")).
Proof.
  intros Ho.
  destruct (build_post_attributes ext self) as [pa|e] eqn:Hbuild;
    [| by rewrite (run_raises_early ext self e Hbuild) in Ho].
  assert (∀ s1, run ext self = report self pa s1 →
            ∀ key, is_Some ((<["post_attributes" := VDict pa]>
                               (<["error" := final_error s1]> (sending_metadata s1)))
                            !! key) →
                   is_Some (o !! key)) as Hkeys.
  { intros s1 Hrun key Hkey. rewrite Hrun, report_run in Ho. simpl in Ho.
    destruct (payload_mapping self) as [d|]; simpl in Ho; [| done].
    injection Ho as <-. apply lookup_union_is_Some. right.
    destruct (decide (key = "post_attributes")) as [-> | Hne].
    - rewrite lookup_insert_eq. eauto.
    - by rewrite lookup_insert_ne in Hkey |- * by done. }
  destruct (run_cases ext self pa Hbuild)
    as [(k & r & content & s1 & _ & _ & _ & _ & _ & Hrun & _ & Hsucc & Hatt)
       | (s1 & _ & Hrun & _ & Hsucc & Hn)].
  - repeat split; try intros _; apply (Hkeys s1 Hrun);
      rewrite ?lookup_insert_eq, ?lookup_insert_ne by done;
      rewrite ?lookup_insert_eq, ?lookup_insert_ne by done; eauto.
  - repeat split; try intros Hlen; apply (Hkeys s1 Hrun);
      rewrite ?lookup_insert_eq, ?lookup_insert_ne by done;
      rewrite ?lookup_insert_eq, ?lookup_insert_ne by done; eauto.
    destruct Hn as [[? _] | (_ & Hatt & _)]; [lia | eauto].
Qed.

(** X18. A hash that is None or the empty string is not merged: the
    outcome has a hash entry only if the payload itself is a dict that
    brings one. *)
Theorem empty_hash_is_not_merged o :
  (run ext self).1 = Ok o →
  hash_value self = None ∨ hash_value self = Some EmptyString →
  o !! "hash" = entries (get_payload self) !! "hash".
Proof.
  intros Ho Hhash.
  destruct (run_returns ext self o Ho) as (pa & s1 & d & _ & _ & Hd & -> & Hnohash).
  rewrite lookup_union, !lookup_insert_ne, Hnohash by done.
  assert (d !! "hash" = entries (get_payload self) !! "hash") as ->;
    [| by destruct (entries (get_payload self) !! "hash")].
  unfold payload_mapping in Hd.
  assert ((match hash_value self with
           | Some h => if (0 <? String.length h)%nat
                       then set_item (if is_string (get_payload self)
                                      then VDict {[ "payload" := get_payload self ]}
                                      else get_payload self) "hash" (VStr h)
                       else Ok (if is_string (get_payload self)
                                then VDict {[ "payload" := get_payload self ]}
                                else get_payload self)
           | None => Ok (if is_string (get_payload self)
                         then VDict {[ "payload" := get_payload self ]}
                         else get_payload self)
           end)
          = Ok (if is_string (get_payload self)
                then VDict {[ "payload" := get_payload self ]}
                else get_payload self)) as Heq.
  { by destruct Hhash as [-> | ->]. }
  rewrite Heq in Hd. simpl in Hd.
  destruct (get_payload self) as [| | | s |d0]; simpl in Hd; try discriminate.
  - injection Hd as <-. reflexivity.
  - injection Hd as <-. reflexivity.
Qed.


(** X20. When a dict payload that has no post_attributes key of its own
    goes out form-encoded with a hash, the request carries the payload as
    the function returned it, but the post_attributes of the outcome show
    the data with the hash added: the two are one object and the hash is
    stored into it after the loop. *)
Theorem reported_data_carries_the_hash post_attributes d0 h o :
  get_encoding self = Ok (VStr EncodingType.FORMS) →
  get_payload self = VDict d0 →
  hash_value self = Some h → h ≠ EmptyString →
  d0 !! "post_attributes" = None →
  build_post_attributes ext self = Ok post_attributes →
  (run ext self).1 = Ok o →
  post_attributes !! "data" = Some (VDict d0)
  ∧ o !! "post_attributes"
    = Some (VDict (<["data" := VDict (<["hash" := VStr h]> d0)]> post_attributes)).
Proof.
  intros Henc Hp Hh Hne Hfree Hbuild Ho.
  assert (payload_mapping self = Ok (<["hash" := VStr h]> d0)) as Hd.
  { rewrite (payload_mapping_dict self d0 Hp), Hh.
    destruct h; [done | reflexivity]. }
  split.
  - destruct (build_post_attributes_inv ext self post_attributes Hbuild)
      as (? & ? & ? & data & ? & ? & _ & _ & _ & Hdata & _ & _ & -> & _).
    unfold format_payload in Hdata. rewrite Henc, Hp in Hdata. simpl in Hdata.
    injection Hdata as <-. by simplify_map_eq.
  - destruct (run_returns ext self o Ho) as (pa & s1 & d & Hb & _ & Hd' & -> & _).
    assert (pa = post_attributes) as -> by congruence.
    assert (d = <["hash" := VStr h]> d0) as -> by congruence.
    rewrite lookup_union_r by (by rewrite lookup_insert_ne).
    rewrite lookup_insert_eq. unfold reported_attributes, data_is_payload.
    by rewrite Henc, Hp.
Qed.

(** X21. Under JSON the post_attributes of the outcome are the very
    attributes that were posted, provided the payload brings no
    post_attributes key of its own. *)
Theorem reported_attributes_are_the_posted_ones post_attributes d o :
  get_encoding self = Ok (VStr EncodingType.JSON) →
  payload_mapping self = Ok d →
  d !! "post_attributes" = None →
  build_post_attributes ext self = Ok post_attributes →
  (run ext self).1 = Ok o →
  o !! "post_attributes" = Some (VDict post_attributes).
Proof.
  intros Henc Hd Hfree Hbuild Ho.
  destruct (run_returns ext self o Ho) as (pa & s1 & d' & Hb & _ & Hd' & -> & _).
  assert (pa = post_attributes) as -> by congruence.
  assert (d' = d) as -> by congruence.
  rewrite lookup_union_r, lookup_insert_eq by done.
  unfold reported_attributes, data_is_payload. by rewrite Henc.
Qed.

(** X22. The values of the schedule play no part: two schedules of the
    same length give the same outcome and the same events, sleeps
    included. *)
Theorem schedule_values_are_ignored schedule schedule' :
  length schedule = length schedule' →
  run ext (with_attempts self schedule) = run ext (with_attempts self schedule').
Proof.
  intros Hlen.
  rewrite <- (run_reads_schedule_length_only ext (with_attempts self schedule')
                schedule); [reflexivity | exact Hlen].
Qed.
End MoreOutcome.

(** ** The further properties on the example senders *)

Lemma success_iff_some_attempt_delivered_witness :
  ∃ b, sending_metadata (run (stub_externals fails_once) scenario_sender).2 !! "success"
       = Some (VBool b)
       ∧ (b = true ↔
          ∃ j, (j < 2)%nat
               ∧ delivered (request (stub_externals fails_once) scenario_sender
                              raw_json_attributes j) = true).
Proof.
  assert (build_post_attributes (stub_externals fails_once) scenario_sender
          = Ok raw_json_attributes) as Hbuild by (vm_compute; reflexivity).
  destruct (success_iff_some_attempt_delivered (stub_externals fails_once)
              scenario_sender raw_json_attributes Hbuild) as (b & Hb & Hiff & _).
  exists b. split; [exact Hb | exact Hiff].
Defined.

Lemma every_post_is_the_same_request_witness :
  ∃ m, posts (trace (run (stub_externals fails_once) scenario_sender).2)
       = replicate m (EPost (VStr "https://example.test/hook") raw_json_attributes)
       ∧ sending_metadata (run (stub_externals fails_once) scenario_sender).2 !! "attempt"
         = Some (VInt (Z.of_nat m)).
Proof.
  assert (build_post_attributes (stub_externals fails_once) scenario_sender
          = Ok raw_json_attributes) as Hbuild by (vm_compute; reflexivity).
  destruct (every_post_is_the_same_request (stub_externals fails_once)
              scenario_sender raw_json_attributes Hbuild) as [Hposts _].
  destruct (Hposts (VStr "https://example.test/hook") eq_refl) as (m & Hm & _ & Hatt).
  exists m. split; [exact Hm |]. apply Hatt. simpl. lia.
Defined.

Lemma error_is_logged_on_exhaustion_witness :
  ∃ b, sending_metadata
         (run (stub_externals (refuses "Connection refused")) one_shot_sender).2
       !! "success" = Some (VBool b)
       ∧ logged ERROR
           (trace (run (stub_externals (refuses "Connection refused"))
                       one_shot_sender).2)
         = if b || (length (attempts one_shot_sender) <? 2)%nat then []
           else ["Failed to send webhook None. Body: payload"].
Proof.
  assert (build_post_attributes (stub_externals (refuses "Connection refused"))
            one_shot_sender = Ok raw_json_attributes) as Hbuild
    by (vm_compute; reflexivity).
  destruct (error_is_logged_on_exhaustion (stub_externals (refuses "Connection refused"))
              one_shot_sender raw_json_attributes Hbuild) as (b & Hb & Hlog & _).
  exists b. split; [exact Hb | exact Hlog].
Defined.

Lemma error_is_null_or_text_witness :
  sending_metadata (run (stub_externals fails_once) scenario_sender).2 !! "error"
  = Some VNone.
Proof.
  assert (build_post_attributes (stub_externals fails_once) scenario_sender
          = Ok raw_json_attributes) as Hbuild by (vm_compute; reflexivity).
  apply (proj1 (error_is_null_or_text (stub_externals fails_once) scenario_sender
                  raw_json_attributes Hbuild)).
  vm_compute. reflexivity.
Defined.

Lemma outcome_has_its_keys_witness :
  ∃ o, (run (stub_externals fails_once) scenario_sender).1 = Ok o
       ∧ is_Some (o !! "success") ∧ is_Some (o !! "error")
       ∧ is_Some (o !! "post_attributes") ∧ is_Some (o !! "attempt").
Proof.
  assert (∃ o, (run (stub_externals fails_once) scenario_sender).1 = Ok o) as [o Ho].
  { vm_compute. eexists. reflexivity. }
  destruct (outcome_has_its_keys (stub_externals fails_once) scenario_sender o Ho)
    as (Hs & He & Hp & Ha).
  exists o. repeat split; try assumption. apply Ha. simpl. lia.
Defined.

Lemma empty_hash_is_not_merged_witness :
  ∃ o, (run (stub_externals fails_once) one_shot_sender).1 = Ok o
       ∧ o !! "hash" = None.
Proof.
  assert (∃ o, (run (stub_externals fails_once) one_shot_sender).1 = Ok o) as [o Ho].
  { vm_compute. eexists. reflexivity. }
  exists o. split; [exact Ho |].
  exact (empty_hash_is_not_merged (stub_externals fails_once) one_shot_sender o Ho
           (or_introl eq_refl)).
Defined.


Lemma reported_data_carries_the_hash_witness :
  ∃ pa o,
    build_post_attributes (stub_externals fails_once) signed_forms_sender = Ok pa
    ∧ (run (stub_externals fails_once) signed_forms_sender).1 = Ok o
    ∧ pa !! "data" = Some (VDict {[ "x" := VInt 1 ]})
    ∧ o !! "post_attributes"
      = Some (VDict (<["data" := VDict (<["hash" := VStr "abc123"]> {[ "x" := VInt 1 ]})]>
                       pa)).
Proof.
  assert (∃ pa, build_post_attributes (stub_externals fails_once) signed_forms_sender
                = Ok pa) as [pa Hpa].
  { vm_compute. eexists. reflexivity. }
  assert (∃ o, (run (stub_externals fails_once) signed_forms_sender).1 = Ok o) as [o Ho].
  { vm_compute. eexists. reflexivity. }
  exists pa, o. split; [exact Hpa |]. split; [exact Ho |].
  apply (reported_data_carries_the_hash (stub_externals fails_once) signed_forms_sender
           pa {[ "x" := VInt 1 ]} "abc123" o); try reflexivity; try assumption.
  discriminate.
Defined.

Lemma reported_attributes_are_the_posted_ones_witness :
  ∃ o, (run (stub_externals fails_once) scenario_sender).1 = Ok o
       ∧ o !! "post_attributes" = Some (VDict raw_json_attributes).
Proof.
  assert (∃ o, (run (stub_externals fails_once) scenario_sender).1 = Ok o) as [o Ho].
  { vm_compute. eexists. reflexivity. }
  exists o. split; [exact Ho |].
  apply (reported_attributes_are_the_posted_ones (stub_externals fails_once)
           scenario_sender raw_json_attributes
           (<["hash" := VStr "abc123"]> {[ "payload" := VStr "raw" ]}) o);
    try reflexivity; try assumption.
Defined.

Lemma schedule_values_are_ignored_witness :
  run (stub_externals fails_once) (with_attempts scenario_sender [5; 9; 2])
  = run (stub_externals fails_once) (with_attempts scenario_sender [0; 0; 0]).
Proof.
  exact (schedule_values_are_ignored (stub_externals fails_once) scenario_sender
           [5; 9; 2] [0; 0; 0] eq_refl).
Defined.
